(** * Student Management API (main.go): model and verified properties

    The program is one Go file: a record type [Student], a process-wide slice
    [students] guarded by a reader/writer mutex, a validator and the HTTP
    handlers registered in [main].  Every handler reads or writes the slice
    inside one critical section of the mutex, so a handler is modelled as one
    atomic function from the slice before the request to the slice after it
    and the response written.

    The pieces of the Go standard library the handlers call
    (encoding/json's decoder, net/http's form parser, strconv.Atoi) are not
    part of the program; they are taken as the fields of a record [Runtime]
    and the properties of the handlers are proved for all of them.  Where a
    property depends on what the library does with a form body or with the
    name of a header, the library's own steps are modelled as well. *)

From Stdlib Require Import Ascii DecimalString.
From stdpp Require Import base decidable option numbers list strings gmap.

Local Open Scope string_scope.
Local Open Scope list_scope.
Local Open Scope Z_scope.

(** ** Data model *)

(** [type Student struct { ID int; Name string; Age int; Email string }] *)
Record Student : Type := mkStudent {
  ID : Z;
  Name : string;
  Age : Z;
  Email : string
}.

#[global] Instance Student_eq_dec : EqDecision Student.
Proof. solve_decision. Defined.

(** [var newStudent Student]: the zero value of the struct. *)
Definition zeroStudent : Student := mkStudent 0 "" 0 "".

(** Field assignments [s.ID = v], [s.Name = v], ... on a struct value. *)
Definition setID (s : Student) (v : Z) : Student :=
  mkStudent v (Name s) (Age s) (Email s).
Definition setName (s : Student) (v : string) : Student :=
  mkStudent (ID s) v (Age s) (Email s).
Definition setAge (s : Student) (v : Z) : Student :=
  mkStudent (ID s) (Name s) v (Email s).
Definition setEmail (s : Student) (v : string) : Student :=
  mkStudent (ID s) (Name s) (Age s) v.

(** Go's [int] on the 64-bit targets: two's complement, additions wrap. *)
Definition maxInt : Z := 2 ^ 63 - 1.
Definition minInt : Z := - 2 ^ 63.
Definition int_wrap (z : Z) : Z := (z + 2 ^ 63) `mod` 2 ^ 64 - 2 ^ 63.
Definition int_add (a b : Z) : Z := int_wrap (a + b).

(** [len(students)] *)
Definition len (students : list Student) : Z := Z.of_nat (length students).

(** ** Responses *)

(** net/http status constants used by the handlers. *)
Definition StatusOK : Z := 200.
Definition StatusCreated : Z := 201.
Definition StatusNoContent : Z := 204.
Definition StatusBadRequest : Z := 400.
Definition StatusNotFound : Z := 404.
Definition StatusMethodNotAllowed : Z := 405.

(** What a handler writes as the body. *)
Inductive Payload : Type :=
  | PlainText (msg : string)            (* http.Error(w, msg, code) *)
  | StudentJSON (student : Student)     (* json.NewEncoder(w).Encode(student) *)
  | StudentsJSON (l : list Student)     (* json.Marshal(students) *)
  | NoBody.

Record Response : Type := mkResponse {
  StatusCode : Z;
  Body_ : Payload
}.

(** [http.Error(w, msg, code)] *)
Definition httpError (msg : string) (code : Z) : Response :=
  mkResponse code (PlainText msg).

(** ** Requests and the library calls made on them *)

Record Request : Type := mkRequest {
  Method : string;        (* r.Method *)
  ContentType : string;   (* r.Header.Get("Content-Type") *)
  PathID : string;        (* r.PathValue("id") *)
  Body : string           (* r.Body *)
}.

Definition MethodGet : string := "GET".
Definition MethodPost : string := "POST".
Definition MethodPut : string := "PUT".
Definition MethodDelete : string := "DELETE".

(** The standard-library functions the handlers call.
    - [DecodeJSON body v]: [json.NewDecoder(r.Body).Decode(&v)], the value of
      [v] after decoding, or [None] when it returns an error;
    - [ParseForm r]: [r.ParseForm()], on success the function
      [key => r.FormValue(key)], or [None] when it returns an error;
    - [Atoi s]: [strconv.Atoi(s)], [None] when it returns an error. *)
Record Runtime : Type := mkRuntime {
  DecodeJSON : string → Student → option Student;
  ParseForm : Request → option (string → string);
  Atoi : string → option Z
}.

(** ** validateStudent (main.go, lines 49-60) *)

(** The returned [error] is [None] for [nil] and [Some msg] for
    [fmt.Errorf(msg)]. *)
Definition validateStudent (student : Student) : option string :=
  if String.eqb (Name student) "" then Some "name is required"
  else if (Age student <=? 0) || (Age student >? 150)
       then Some "age must be between 1 and 150"
  else if String.eqb (Email student) "" then Some "email is required"
  else None.

(** ** The critical sections of the handlers *)

(** handleStudents (lines 34-47).  [json.Marshal] of a slice of structs of
    strings and ints has no failing case, so the 500 branch is dead. *)
Definition handleStudents (students : list Student) : Response :=
  mkResponse StatusOK (StudentsJSON students).

(** The loop [for i, student := range students { if student.ID == id {...} }]
    stops at the first index whose record has the wanted id: [list_find]. *)
Definition findByID (id : Z) (students : list Student) : option (nat * Student) :=
  list_find (λ student, ID student = id) students.

(** POST /students after the body is read (lines 154-166): validate, then
    under the lock assign [len(students) + 1] and append. *)
Definition create (students : list Student) (newStudent : Student)
  : list Student * Response :=
  match validateStudent newStudent with
  | Some err => (students, httpError err StatusBadRequest)
  | None =>
      let newStudent := setID newStudent (int_add (len students) 1) in
      (students ++ [newStudent], mkResponse StatusCreated (StudentJSON newStudent))
  end.

(** GET /students/{id} after the id is parsed (lines 183-193). *)
Definition get (students : list Student) (id : Z) : Response :=
  match findByID id students with
  | Some (_, student) => mkResponse StatusOK (StudentJSON student)
  | None => httpError "Student not found" StatusNotFound
  end.

(** PUT /students/{id} after id and body are read (lines 234-252);
    [updatedStudent.ID] already holds the id of the path. *)
Definition update (students : list Student) (updatedStudent : Student)
  : list Student * Response :=
  match validateStudent updatedStudent with
  | Some err => (students, httpError err StatusBadRequest)
  | None =>
      match findByID (ID updatedStudent) students with
      | Some (i, _) =>
          (<[i := updatedStudent]> students,
           mkResponse StatusOK (StudentJSON updatedStudent))
      | None => (students, httpError "Student not found" StatusNotFound)
      end
  end.

(** DELETE /students/{id} after the id is parsed (lines 261-271):
    [students = append(students[:i], students[i+1:]...)]. *)
Definition delete (students : list Student) (id : Z) : list Student * Response :=
  match findByID id students with
  | Some (i, _) =>
      (take i students ++ drop (S i) students, mkResponse StatusNoContent NoBody)
  | None => (students, httpError "Student not found" StatusNotFound)
  end.

(** ** The handlers registered in main *)

(** Reading the body of POST /students into [newStudent] (lines 124-152):
    either the candidate or the 400 response the handler returns with. *)
Definition readNewStudent (rt : Runtime) (r : Request) : Student + Response :=
  let newStudent := zeroStudent in
  if String.eqb (ContentType r) "application/json" then
    match DecodeJSON rt (Body r) newStudent with
    | None => inr (httpError "Invalid JSON data" StatusBadRequest)
    | Some newStudent => inl newStudent
    end
  else
    match ParseForm rt r with
    | None => inr (httpError "Invalid form data" StatusBadRequest)
    | Some FormValue =>
        let newStudent := setName newStudent (FormValue "name") in
        let ageStr := FormValue "age" in
        if String.eqb ageStr "" then
          inr (httpError "Age is required" StatusBadRequest)
        else
          match Atoi rt ageStr with
          | None =>
              inr (httpError ("Invalid age: " +:+ ageStr +:+ " (must be a number)")
                             StatusBadRequest)
          | Some age =>
              let newStudent := setAge newStudent age in
              let newStudent := setEmail newStudent (FormValue "email") in
              inl newStudent
          end
    end.

(** Reading the body of PUT /students/{id} into [updatedStudent]
    (lines 202-232). *)
Definition readUpdatedStudent (rt : Runtime) (r : Request) (id : Z)
  : Student + Response :=
  let updatedStudent := setID zeroStudent id in
  if String.eqb (ContentType r) "application/json" then
    match DecodeJSON rt (Body r) updatedStudent with
    | None => inr (httpError "Invalid JSON data" StatusBadRequest)
    | Some updatedStudent =>
        let updatedStudent := setID updatedStudent id in
        inl updatedStudent
    end
  else
    match ParseForm rt r with
    | None => inr (httpError "Invalid form data" StatusBadRequest)
    | Some FormValue =>
        let updatedStudent := setName updatedStudent (FormValue "name") in
        let ageStr := FormValue "age" in
        if String.eqb ageStr "" then
          inr (httpError "Age is required" StatusBadRequest)
        else
          match Atoi rt ageStr with
          | None =>
              inr (httpError ("Invalid age: " +:+ ageStr +:+ " (must be a number)")
                             StatusBadRequest)
          | Some age =>
              let updatedStudent := setAge updatedStudent age in
              let updatedStudent := setEmail updatedStudent (FormValue "email") in
              inl updatedStudent
          end
    end.

(** The handler of "/students" (lines 119-170). *)
Definition studentsHandler (rt : Runtime) (r : Request) (students : list Student)
  : list Student * Response :=
  if String.eqb (Method r) MethodGet then
    (students, handleStudents students)
  else if String.eqb (Method r) MethodPost then
    match readNewStudent rt r with
    | inr resp => (students, resp)
    | inl newStudent => create students newStudent
    end
  else (students, httpError "Method not allowed" StatusMethodNotAllowed).

(** The handler of "/students/{id}" (lines 174-275). *)
Definition studentByIDHandler (rt : Runtime) (r : Request) (students : list Student)
  : list Student * Response :=
  if String.eqb (Method r) MethodGet then
    match Atoi rt (PathID r) with
    | None => (students, httpError "Invalid ID" StatusBadRequest)
    | Some id => (students, get students id)
    end
  else if String.eqb (Method r) MethodPut then
    match Atoi rt (PathID r) with
    | None => (students, httpError "Invalid ID" StatusBadRequest)
    | Some id =>
        match readUpdatedStudent rt r id with
        | inr resp => (students, resp)
        | inl updatedStudent => update students updatedStudent
        end
    end
  else if String.eqb (Method r) MethodDelete then
    match Atoi rt (PathID r) with
    | None => (students, httpError "Invalid ID" StatusBadRequest)
    | Some id => delete students id
    end
  else (students, httpError "Method not allowed" StatusMethodNotAllowed).

(** ** Histories of the store *)

(** The three operations that write the store, as the specification names
    them: [create(candidate)], [update(id, X)], [delete(id)]. *)
Inductive Op : Type :=
  | OpCreate (candidate : Student)
  | OpUpdate (id : Z) (X : Student)
  | OpDelete (id : Z).

Definition apply_op (students : list Student) (op : Op) : list Student :=
  match op with
  | OpCreate candidate => fst (create students candidate)
  | OpUpdate id X => fst (update students (setID X id))
  | OpDelete id => fst (delete students id)
  end.

(** [students = []Student{}] at the start of main, then one operation after
    the other. *)
Definition run (ops : list Op) : list Student := foldl apply_op [] ops.

Definition reachable (students : list Student) : Prop :=
  ∃ ops, run ops = students.

(** The ids held by the store, in insertion order. *)
Definition ids (students : list Student) : list Z := ID <$> students.

(** ** The server as a sequence of requests *)

(** The two patterns of the mux whose handlers touch the store. *)
Inductive Route : Type :=
  | RouteStudents       (* "/students" *)
  | RouteStudentByID.   (* "/students/{id}" *)

Definition serve (rt : Runtime) (students : list Student) (q : Route * Request)
  : list Student * Response :=
  match fst q with
  | RouteStudents => studentsHandler rt (snd q) students
  | RouteStudentByID => studentByIDHandler rt (snd q) students
  end.

(** The store after the requests [qs], served one after the other from the
    empty store. *)
Definition serve_all (rt : Runtime) (qs : list (Route * Request)) : list Student :=
  foldl (λ students q, fst (serve rt students q)) [] qs.

(** ** The summarizer client: callOllamaAPI (main.go, lines 62-93) *)

Definition StatusInternalServerError : Z := 500.

(** [type OllamaRequest struct { Model string; Prompt string; Stream bool }] *)
Record OllamaRequest : Type := mkOllamaRequest {
  Model : string;
  Prompt : string;
  Stream : bool
}.

(** [type OllamaResponse struct { Response string }]; the field is renamed
    because [Response] is the type of the handlers' responses here. *)
Record OllamaResponse : Type := mkOllamaResponse {
  OllamaResponse_Response : string
}.

(** A Go result [(v, err)]: the value, or the text [err.Error()]. *)
Inductive Result (A : Type) : Type :=
  | Ok (v : A)
  | Err (msg : string).
Arguments Ok {A} v.
Arguments Err {A} msg.

(** The library calls of callOllamaAPI.
    - [Marshal req]: [json.Marshal(requestBody)];
    - [Post url contentType body]: [http.Post(url, contentType, body)], on
      success the status code and the body of the response;
    - [DecodeOllama body v]: [json.NewDecoder(resp.Body).Decode(&v)], the
      value of [v] after decoding. *)
Record Collaborator : Type := mkCollaborator {
  Marshal : OllamaRequest → Result string;
  Post : string → string → string → Result (Z * string);
  DecodeOllama : string → OllamaResponse → Result OllamaResponse
}.

(** The verb [%d] of fmt on an [int]: decimal digits, [-] before a negative
    number. *)
Definition itoa (z : Z) : string := NilZero.string_of_int (Z.to_int z).

(** The instruction built by [fmt.Sprintf] at lines 63-64. *)
Definition ollamaPrompt (student : Student) : string :=
  "Generate a brief, friendly summary of this student: Name: " +:+ Name student
  +:+ ", Age: " +:+ itoa (Age student)
  +:+ ", Email: " +:+ Email student
  +:+ ". Keep it under 100 words. Don't include any other text like 'Here is the summary' or 'Here is the student' or 'Here is the student summary'. Just the summary.".

Definition callOllamaAPI (net : Collaborator) (student : Student) : Result string :=
  let prompt := ollamaPrompt student in
  let requestBody := mkOllamaRequest "llama3.2" prompt false in
  match Marshal net requestBody with
  | Err err => Err err
  | Ok jsonData =>
      match Post net "http://localhost:11434/api/generate" "application/json" jsonData with
      | Err err => Err ("failed to call Ollama API: " +:+ err)
      | Ok (status, body) =>
          if negb (status =? StatusOK) then
            Err ("Ollama API returned status: " +:+ itoa status)
          else
            match DecodeOllama net body (mkOllamaResponse "") with
            | Err err => Err err
            | Ok ollamaResp => Ok (OllamaResponse_Response ollamaResp)
            end
      end
  end.

(** ** The handler of "/students/{id}/summary" (lines 278-320) *)

(** What the handler writes: an error of [http.Error], or with status 200 the
    JSON object with the keys "student" and "summary". *)
Inductive SummaryResponse : Type :=
  | SummaryError (resp : Response)
  | SummaryJSON (student : Student) (summary : string).

(** The handler only reads the store; the loop with [break] stops at the
    first record carrying the id, and the collaborator is called on the copy
    of that record after the lock is released. *)
Definition summaryHandler (rt : Runtime) (net : Collaborator) (r : Request)
           (students : list Student) : SummaryResponse :=
  if negb (String.eqb (Method r) MethodGet) then
    SummaryError (httpError "Method not allowed" StatusMethodNotAllowed)
  else
    match Atoi rt (PathID r) with
    | None => SummaryError (httpError "Invalid ID" StatusBadRequest)
    | Some id =>
        match findByID id students with
        | None => SummaryError (httpError "Student not found" StatusNotFound)
        | Some (_, targetStudent) =>
            match callOllamaAPI net targetStudent with
            | Err err =>
                SummaryError (httpError ("Failed to generate summary: " +:+ err)
                                        StatusInternalServerError)
            | Ok summary => SummaryJSON targetStudent summary
            end
        end
    end.

(** ** The Go library beneath the handlers *)

(** net/http, net/url, mime, net/textproto and strconv are not part of the
    repository.  The handlers reach them through [Runtime] and every
    property above that record holds for all of its values.  This part
    follows the library itself where a property depends on what the library
    does: the control flow of [Request.ParseForm], [parsePostForm] and
    [Request.FormValue] (net/http, request.go) over the parsers they call,
    and executable versions of [textproto.CanonicalMIMEHeaderKey],
    [strconv.Atoi], [url.ParseQuery] and the media type of
    [mime.ParseMediaType]. *)

(** *** Bytes and strings *)

Definition byte_in (lo hi : N) (c : ascii) : bool :=
  ((lo <=? N_of_ascii c) && (N_of_ascii c <=? hi))%N.

Definition isDigit (c : ascii) : bool := byte_in 48 57 c.   (* '0'..'9' *)
Definition isUpper (c : ascii) : bool := byte_in 65 90 c.   (* 'A'..'Z' *)
Definition isLower (c : ascii) : bool := byte_in 97 122 c.  (* 'a'..'z' *)

Definition toLower (c : ascii) : ascii :=
  if isUpper c then ascii_of_N (N_of_ascii c + 32) else c.
Definition toUpper (c : ascii) : ascii :=
  if isLower c then ascii_of_N (N_of_ascii c - 32) else c.

(** One of the bytes with the given codes. *)
Definition byte_among (codes : list N) (c : ascii) : bool :=
  existsb (N.eqb (N_of_ascii c)) codes.

Fixpoint string_forall (p : ascii → bool) (s : string) : bool :=
  match s with
  | EmptyString => true
  | String c rest => p c && string_forall p rest
  end.

Fixpoint string_map (f : ascii → ascii) (s : string) : string :=
  match s with
  | EmptyString => EmptyString
  | String c rest => String (f c) (string_map f rest)
  end.

(** [strings.Cut(s, sep)] for a separator of one byte: the text before the
    first separator, the text after it, and whether there is one. *)
Fixpoint strings_Cut (sep : ascii) (s : string) : string * string * bool :=
  match s with
  | EmptyString => (EmptyString, EmptyString, false)
  | String c rest =>
      if Ascii.eqb c sep then (EmptyString, rest, true)
      else let '(before, after, found) := strings_Cut sep rest in
           (String c before, after, found)
  end.

(** The pieces of [s] between the separators, in order. *)
Fixpoint strings_Split (sep : ascii) (s : string) : list string :=
  match s with
  | EmptyString => [EmptyString]
  | String c rest =>
      if Ascii.eqb c sep then EmptyString :: strings_Split sep rest
      else match strings_Split sep rest with
           | piece :: pieces => String c piece :: pieces
           | [] => [String c EmptyString]
           end
  end.

(** White space of ASCII: tab, line feed, vertical tab, form feed, carriage
    return, space. *)
Definition isSpace (c : ascii) : bool := byte_in 9 13 c || byte_in 32 32 c.

Fixpoint trimLeft (s : string) : string :=
  match s with
  | EmptyString => EmptyString
  | String c rest => if isSpace c then trimLeft rest else s
  end.

Fixpoint trimRight (s : string) : string :=
  match s with
  | EmptyString => EmptyString
  | String c rest =>
      match trimRight rest with
      | EmptyString => if isSpace c then EmptyString else String c EmptyString
      | kept => String c kept
      end
  end.

(** [strings.TrimSpace] on ASCII text. *)
Definition strings_TrimSpace (s : string) : string := trimRight (trimLeft s).

(** *** textproto.CanonicalMIMEHeaderKey *)

(** The bytes of a header name: letters, digits and
    [! # $ % & ' * + - . ^ _ ` | ~]. *)
Definition validHeaderFieldByte (c : ascii) : bool :=
  isDigit c || isUpper c || isLower c ||
  byte_among [33; 35; 36; 37; 38; 39; 42; 43; 45; 46; 94; 95; 96; 124; 126]%N c.

(** Upper case for the first letter and for a letter after a hyphen, lower
    case for the others. *)
Fixpoint canonicalLetters (upper : bool) (s : string) : string :=
  match s with
  | EmptyString => EmptyString
  | String c rest =>
      let c := if upper then toUpper c else toLower c in
      String c (canonicalLetters (Ascii.eqb c "-") rest)
  end.

(** A name with a byte that is not a header byte is returned as it is. *)
Definition CanonicalMIMEHeaderKey (s : string) : string :=
  if string_forall validHeaderFieldByte s then canonicalLetters true s else s.

(** *** strconv.Atoi *)

Fixpoint digitsValue (s : string) (acc : Z) : option Z :=
  match s with
  | EmptyString => Some acc
  | String c rest =>
      if isDigit c
      then digitsValue rest (acc * 10 + Z.of_N (N_of_ascii c - 48))
      else None
  end.

(** An optional sign, then one decimal digit or more; a value outside of
    [int] is an error. *)
Definition strconv_Atoi (s : string) : option Z :=
  match s with
  | EmptyString => None
  | String c rest =>
      let neg := Ascii.eqb c "-" in
      let digits := if neg || Ascii.eqb c "+" then rest else s in
      match digits with
      | EmptyString => None
      | _ =>
          match digitsValue digits 0 with
          | None => None
          | Some n =>
              let v := if neg then - n else n in
              if (minInt <=? v) && (v <=? maxInt) then Some v else None
          end
      end
  end.

(** *** url.ParseQuery *)

(** [url.Values] as the pairs of a key and a value, the values of one key in
    their order. *)
Definition Values : Type := list (string * string).

(** The first value of the key, or the empty string. *)
Fixpoint Values_Get (key : string) (vs : Values) : string :=
  match vs with
  | [] => EmptyString
  | (k, v) :: vs => if String.eqb k key then v else Values_Get key vs
  end.

Definition unhex (c : ascii) : option N :=
  if isDigit c then Some (N_of_ascii c - 48)%N
  else if byte_in 97 102 c then Some (N_of_ascii c - 97 + 10)%N
  else if byte_in 65 70 c then Some (N_of_ascii c - 65 + 10)%N
  else None.

(** [url.QueryUnescape]: [%XX] is the byte with the code XX, [+] is a space,
    a [%] without two hexadecimal digits is an error. *)
Fixpoint url_QueryUnescape (s : string) : option string :=
  match s with
  | EmptyString => Some EmptyString
  | String c rest =>
      if Ascii.eqb c "%" then
        match rest with
        | String a (String b rest') =>
            match unhex a, unhex b with
            | Some x, Some y =>
                String (ascii_of_N (16 * x + y)) <$> url_QueryUnescape rest'
            | _, _ => None
            end
        | _ => None
        end
      else if Ascii.eqb c "+" then String " " <$> url_QueryUnescape rest
      else String c <$> url_QueryUnescape rest
  end.

(** One setting [key=value] of a query: an error ([None]), nothing for the
    empty setting, or the pair. *)
Definition parseQuerySetting (setting : string) : option (option (string * string)) :=
  if negb (string_forall (λ c, negb (Ascii.eqb c ";")) setting) then None
  else if String.eqb setting "" then Some None
  else
    let '(key, value, _) := strings_Cut "=" setting in
    match url_QueryUnescape key, url_QueryUnescape value with
    | Some key, Some value => Some (Some (key, value))
    | _, _ => None
    end.

Fixpoint parseQuerySettings (settings : list string) : option Values :=
  match settings with
  | [] => Some []
  | setting :: settings =>
      match parseQuerySetting setting, parseQuerySettings settings with
      | Some (Some kv), Some vs => Some (kv :: vs)
      | Some None, Some vs => Some vs
      | _, _ => None
      end
  end.

(** The settings separated by [&]; [None] when [url.ParseQuery] returns an
    error (the handlers answer 400 then and do not use the values). *)
Definition url_ParseQuery (query : string) : option Values :=
  parseQuerySettings (strings_Split "&" query).

(** *** The media type of mime.ParseMediaType *)

(** A byte of a token: printable ASCII other than the space and
    ( ) < > @ , ; : \ double quote / [ ] ? = *)
Definition isTokenChar (c : ascii) : bool :=
  byte_in 33 126 c &&
  negb (byte_among [40; 41; 60; 62; 64; 44; 59; 58; 92; 34; 47; 91; 93; 63; 61]%N c).

Definition isToken (s : string) : bool :=
  negb (String.eqb s "") && string_forall isTokenChar s.

(** [checkMediaTypeDisposition]: a token, or a token, a slash and a token. *)
Definition checkMediaTypeDisposition (s : string) : bool :=
  let '(typ, subtype, slash) := strings_Cut "/" s in
  isToken typ && (if slash then isToken subtype else true).

(** The media type of a header value: the text before the first semicolon
    in lower case without the white space around it.  The parameters after
    the semicolon are not examined here, so this is the library's answer for
    ASCII values whose parameters are well formed (the library reports an
    error for the others). *)
Definition mime_mediaType (v : string) : option string :=
  let '(base, _, _) := strings_Cut ";" v in
  let mediatype := strings_TrimSpace (string_map toLower base) in
  if checkMediaTypeDisposition mediatype then Some mediatype else None.

(** *** Request.ParseForm and Request.FormValue *)

(** The parsers beneath [ParseForm], [None] when they return an error:
    - [ParseMediaType v]: the media type of [mime.ParseMediaType(v)];
    - [ReadForm body]: [io.ReadAll] of the body within the limit of the
      library, then [url.ParseQuery];
    - [ParseQuery query]: [url.ParseQuery];
    - [RawQuery r]: [r.URL.RawQuery], which [Request] does not hold. *)
Record FormLibrary : Type := mkFormLibrary {
  ParseMediaType : string → option string;
  ReadForm : string → option Values;
  ParseQuery : string → option Values;
  RawQuery : Request → string
}.

(** An empty Content-Type header stands for application/octet-stream. *)
Definition formContentType (r : Request) : string :=
  let ct := ContentType r in
  if String.eqb ct "" then "application/octet-stream" else ct.

(** [parsePostForm] on the request of a server, whose body is never nil: the
    body is read when the media type of the Content-Type header is
    application/x-www-form-urlencoded and only then; for every other type,
    multipart/form-data included, there are no values and no error.  (When
    the media type is returned together with an error about its parameters
    the library still reads the body; [ParseForm] returns the error either
    way.) *)
Definition parsePostForm (lib : FormLibrary) (r : Request) : option Values :=
  let ct := formContentType r in
  match ParseMediaType lib ct with
  | None => None
  | Some ct =>
      if String.eqb ct "application/x-www-form-urlencoded"
      then ReadForm lib (Body r)
      else Some []
  end.

(** [r.ParseForm()] followed by [r.FormValue(key)]: [r.Form] holds for each
    key the values of the body followed by those of the URL query, and
    [FormValue] returns the first of them. *)
Definition Request_ParseForm (lib : FormLibrary) (r : Request)
  : option (string → string) :=
  let postForm :=
    if String.eqb (Method r) "POST" || String.eqb (Method r) "PUT"
       || String.eqb (Method r) "PATCH"
    then parsePostForm lib r
    else Some [] in
  match postForm, ParseQuery lib (RawQuery lib r) with
  | Some postForm, Some newValues =>
      Some (λ key, Values_Get key (postForm ++ newValues))
  | _, _ => None
  end.

(** The runtime of a server on net/http. *)
Definition netHTTP (decode : string → Student → option Student)
           (lib : FormLibrary) (atoi : string → option Z) : Runtime :=
  mkRuntime decode (Request_ParseForm lib) atoi.

(** The form branch of POST /students once the form values are known
    (lines 139-166). *)
Definition createFromValues (atoi : string → option Z) (students : list Student)
           (values : Values) : list Student * Response :=
  let newStudent := setName zeroStudent (Values_Get "name" values) in
  let ageStr := Values_Get "age" values in
  if String.eqb ageStr "" then
    (students, httpError "Age is required" StatusBadRequest)
  else
    match atoi ageStr with
    | None =>
        (students,
         httpError ("Invalid age: " +:+ ageStr +:+ " (must be a number)")
                   StatusBadRequest)
    | Some age =>
        let newStudent := setAge newStudent age in
        let newStudent := setEmail newStudent (Values_Get "email" values) in
        create students newStudent
    end.

(** The form branch of PUT /students/{id} once the form values are known
    (lines 219-252). *)
Definition updateFromValues (atoi : string → option Z) (students : list Student)
           (id : Z) (values : Values) : list Student * Response :=
  let updatedStudent := setName (setID zeroStudent id) (Values_Get "name" values) in
  let ageStr := Values_Get "age" values in
  if String.eqb ageStr "" then
    (students, httpError "Age is required" StatusBadRequest)
  else
    match atoi ageStr with
    | None =>
        (students,
         httpError ("Invalid age: " +:+ ageStr +:+ " (must be a number)")
                   StatusBadRequest)
    | Some age =>
        let updatedStudent := setAge updatedStudent age in
        let updatedStudent := setEmail updatedStudent (Values_Get "email" values) in
        update students updatedStudent
    end.

(** ** enableCORS (lines 95-99) *)

(** [http.Header]: a map from header names to their values.  [Set] and [Get]
    work on the canonical form of the name; [Set] replaces the values of the
    name by one value. *)
Abbreviation Header := (gmap string (list string)) (only parsing).

Definition Header_Set (key value : string) (h : Header) : Header :=
  <[CanonicalMIMEHeaderKey key := [value]]> h.

(** [h.Get(key)]: the first value of the name, or the empty string. *)
Definition Header_Get (key : string) (h : Header) : string :=
  match h !! CanonicalMIMEHeaderKey key with
  | Some (value :: _) => value
  | _ => ""
  end.

Definition enableCORS (h : Header) : Header :=
  let h := Header_Set "Access-Control-Allow-Origin" "*" h in
  let h := Header_Set "Access-Control-Allow-Methods" "GET, POST, PUT, DELETE, OPTIONS" h in
  let h := Header_Set "Access-Control-Allow-Headers" "Content-Type" h in
  h.

(** ** The validator as the specification words it *)

(** A rule is a check and the message reported when the check fails. *)
Definition Rule : Type := (Student → bool) * string.

(** "name non-empty; age in [1,150]; email non-empty", in this order. *)
Definition validation_rules : list Rule :=
  [ (λ c, negb (String.eqb (Name c) ""), "name is required");
    (λ c, (1 <=? Age c) && (Age c <=? 150), "age must be between 1 and 150");
    (λ c, negb (String.eqb (Email c) ""), "email is required") ].

(** "first failure wins" *)
Fixpoint first_failure (rules : list Rule) (c : Student) : option string :=
  match rules with
  | [] => None
  | (check, msg) :: rules => if check c then first_failure rules c else Some msg
  end.

(** ** Records that pass validation *)

Definition valid (student : Student) : Prop := validateStudent student = None.

(** ** Sample data for the examples *)

Definition alice : Student := mkStudent 0 "Alice" 20 "alice@example.com".
Definition bob : Student := mkStudent 0 "Bob" 21 "bob@example.com".
Definition carol : Student := mkStudent 0 "Carol" 22 "carol@example.com".

(** A runtime for the examples.  Its JSON decoder fails on the empty body,
    leaves the struct as it is on the body "{}" and otherwise reads the body
    as the name of a student aged 30 to whom the client gave the id 99; its
    form parser fails on the empty body and
    otherwise reads the body as the value of [name], with age "20"; its
    [Atoi] knows the numerals used in the examples. *)
Definition sampleRuntime : Runtime :=
  mkRuntime
    (λ body v,
       if String.eqb body "" then None
       else if String.eqb body "{}" then Some v
       else Some (mkStudent 99 body 30 "json@example.com"))
    (λ r,
       if String.eqb (Body r) "" then None
       else Some (λ key,
              if String.eqb key "name" then Body r
              else if String.eqb key "age" then "20"
              else if String.eqb key "email" then "form@example.com"
              else ""))
    (λ s,
       if String.eqb s "1" then Some 1
       else if String.eqb s "2" then Some 2
       else if String.eqb s "20" then Some 20
       else None).

(** The library of a server on Go for requests whose URL has no query: the
    limit of [ParseForm] on a body is 10 MB. *)
Definition goFormLibrary : FormLibrary :=
  mkFormLibrary
    mime_mediaType
    (λ body,
       if (10485760 <? N.of_nat (String.length body))%N then None
       else url_ParseQuery body)
    url_ParseQuery
    (λ _, "").

(** A JSON decoder for the examples: the empty object leaves the struct as
    it is; every other body is reported as an error, and the examples give
    it the empty body only, on which encoding/json reports an error too. *)
Definition decodeEmptyObject (body : string) (v : Student) : option Student :=
  if String.eqb body "{}" then Some v else None.

(** The runtime on that library. *)
Definition goRuntime : Runtime :=
  netHTTP decodeEmptyObject goFormLibrary strconv_Atoi.

(** A form body, and the values [url.ParseQuery] reads from it. *)
Definition janeBody : string := "name=Jane&age=22&email=jane%40x.com".
Definition janeValues : Values :=
  [("name", "Jane"); ("age", "22"); ("email", "jane@x.com")].

(** A runtime whose form parser reads the body as the value of [age] and
    gives no name and no email. *)
Definition sampleRuntime_ageForm : Runtime :=
  mkRuntime (DecodeJSON sampleRuntime)
            (λ r, Some (λ key, if String.eqb key "age" then Body r else ""))
            (Atoi sampleRuntime).

(** Two creations, the deletion of the first record, one more creation. *)
Definition history_reusing_id : list Op :=
  [OpCreate alice; OpCreate bob; OpDelete 1; OpCreate carol].

(** The same history as requests: three form posts and one delete. *)
Definition requests_reusing_id : list (Route * Request) :=
  [ (RouteStudents, mkRequest "POST" "application/x-www-form-urlencoded" "" "Alice");
    (RouteStudents, mkRequest "POST" "application/x-www-form-urlencoded" "" "Bob");
    (RouteStudentByID, mkRequest "DELETE" "" "1" "");
    (RouteStudents, mkRequest "POST" "application/x-www-form-urlencoded" "" "Carol") ].

(** A collaborator for the examples: it marshals a request to its prompt,
    answers every post with status 200 and the body "ok", and decodes a body
    to the response holding it. *)
Definition sampleCollaborator : Collaborator :=
  mkCollaborator
    (λ req, Ok (Prompt req))
    (λ _ _ body, Ok (200, "ok"))
    (λ body _, Ok (mkOllamaResponse body)).

(** Collaborators that fail at the post, answer 503, fail at the decoding. *)
Definition collaborator_down : Collaborator :=
  mkCollaborator (Marshal sampleCollaborator)
                 (λ _ _ _, Err "connection refused")
                 (DecodeOllama sampleCollaborator).
Definition collaborator_busy : Collaborator :=
  mkCollaborator (Marshal sampleCollaborator)
                 (λ _ _ _, Ok (503, "busy"))
                 (DecodeOllama sampleCollaborator).
Definition collaborator_garbled : Collaborator :=
  mkCollaborator (Marshal sampleCollaborator)
                 (Post sampleCollaborator)
                 (λ _ _, Err "unexpected EOF").

(** A collaborator that answers like [sampleCollaborator] at the address of
    the summarizer and refuses every other address. *)
Definition collaborator_one_address : Collaborator :=
  mkCollaborator (Marshal sampleCollaborator)
                 (λ url contentType body,
                    if String.eqb url "http://localhost:11434/api/generate"
                    then Post sampleCollaborator url contentType body
                    else Err "no route to host")
                 (DecodeOllama sampleCollaborator).

(** * Properties *)

(** ** Auxiliary facts *)

Lemma int_wrap_id (z : Z) : minInt ≤ z ≤ maxInt → int_wrap z = z.
Proof.
  unfold minInt, maxInt, int_wrap. intros Hz.
  rewrite Z.mod_small by lia. lia.
Qed.

(** A slice of [n] records below the largest [int] gets the id [n + 1]
    without wrapping. *)
Lemma int_add_len (students : list Student) :
  len students < maxInt → int_add (len students) 1 = len students + 1.
Proof.
  intros Hlen. unfold int_add. apply int_wrap_id.
  unfold len, minInt, maxInt in *. lia.
Qed.

Lemma eqb_empty_true (s : string) : String.eqb s "" = true ↔ s = "".
Proof. apply String.eqb_eq. Qed.

Lemma eqb_empty_false (s : string) : String.eqb s "" = false ↔ s ≠ "".
Proof. apply String.eqb_neq. Qed.

(** The validator does not read the id. *)
Lemma validateStudent_setID (student : Student) (id : Z) :
  validateStudent (setID student id) = validateStudent student.
Proof. reflexivity. Qed.

(** The validator accepts exactly the candidates with the three fields in
    range. *)
Lemma validateStudent_None (student : Student) :
  validateStudent student = None ↔
  Name student ≠ "" ∧ 1 ≤ Age student ≤ 150 ∧ Email student ≠ "".
Proof.
  unfold validateStudent.
  destruct (String.eqb (Name student) "") eqn:Hn.
  { apply eqb_empty_true in Hn. split; [done|]. by intros (Hne & _). }
  apply eqb_empty_false in Hn.
  destruct ((Age student <=? 0) || (Age student >? 150)) eqn:Ha.
  { apply orb_true_iff in Ha. split; [done|]. intros (_ & Hr & _). lia. }
  apply orb_false_iff in Ha.
  destruct (String.eqb (Email student) "") eqn:He.
  { apply eqb_empty_true in He. split; [done|]. by intros (_ & _ & Hne). }
  apply eqb_empty_false in He.
  split; [|done]. intros _. split_and!; [done|lia|lia|done].
Qed.

(** The scan finds nothing exactly when no record carries the id. *)
Lemma findByID_None (id : Z) (students : list Student) :
  findByID id students = None ↔ Forall (λ student, ID student ≠ id) students.
Proof. unfold findByID. apply list_find_None. Qed.

(** The scan stops at the first record carrying the id. *)
Lemma findByID_first (id : Z) (pre post : list Student) (st : Student) :
  Forall (λ student, ID student ≠ id) pre →
  ID st = id →
  findByID id (pre ++ st :: post) = Some (length pre, st).
Proof.
  intros Hpre Hst. unfold findByID. apply list_find_Some. split_and!.
  - by rewrite list_lookup_middle.
  - done.
  - intros j y Hj Hlt. rewrite lookup_app_l in Hj by done.
    rewrite Forall_lookup in Hpre. by apply (Hpre j y).
Qed.

(** A successful scan splits the slice around the record found. *)
Lemma findByID_Some (id : Z) (students : list Student) (i : nat) (st : Student) :
  findByID id students = Some (i, st) →
  ∃ pre post,
    students = pre ++ st :: post ∧ length pre = i ∧
    Forall (λ student, ID student ≠ id) pre ∧ ID st = id.
Proof.
  unfold findByID. intros (Hi & Hid & Hleast)%list_find_Some.
  exists (take i students), (drop (S i) students). split_and!.
  - by rewrite take_drop_middle.
  - apply length_take_le. apply lookup_lt_Some in Hi. lia.
  - apply Forall_lookup. intros j y Hj.
    apply lookup_take_Some in Hj as [Hj Hlt]. by apply (Hleast j y).
  - done.
Qed.

Lemma findByID_elem_of (id : Z) (students : list Student) (st : Student) :
  st ∈ students → ID st = id → is_Some (findByID id students).
Proof. intros Hin Hid. unfold findByID. by eapply list_find_elem_of. Qed.

(** [append(students[:i], students[i+1:]...)] at the index of [st]. *)
Lemma take_drop_at (pre post : list Student) (st : Student) :
  take (length pre) (pre ++ st :: post) ++ drop (S (length pre)) (pre ++ st :: post)
  = pre ++ post.
Proof.
  rewrite take_app_length.
  by rewrite (cons_middle st pre post), app_assoc, drop_app_length'
    by (rewrite length_app; simpl; lia).
Qed.

(** [students[i] = updatedStudent] at the index of [st]. *)
Lemma insert_at (pre post : list Student) (st u : Student) :
  <[length pre := u]> (pre ++ st :: post) = pre ++ u :: post.
Proof. by rewrite insert_app_r_alt, Nat.sub_diag by lia. Qed.

(** What the three store operations do on a slice split at the first match. *)
Lemma get_first (id : Z) (pre post : list Student) (st : Student) :
  Forall (λ student, ID student ≠ id) pre → ID st = id →
  get (pre ++ st :: post) id = mkResponse StatusOK (StudentJSON st).
Proof. intros Hpre Hst. unfold get. by rewrite findByID_first. Qed.

Lemma update_first (pre post : list Student) (st u : Student) :
  Forall (λ student, ID student ≠ ID u) pre → ID st = ID u →
  validateStudent u = None →
  update (pre ++ st :: post) u
  = (pre ++ u :: post, mkResponse StatusOK (StudentJSON u)).
Proof.
  intros Hpre Hst Hv. unfold update. rewrite Hv, findByID_first by done.
  by rewrite insert_at.
Qed.

Lemma delete_first (id : Z) (pre post : list Student) (st : Student) :
  Forall (λ student, ID student ≠ id) pre → ID st = id →
  delete (pre ++ st :: post) id
  = (pre ++ post, mkResponse StatusNoContent NoBody).
Proof.
  intros Hpre Hst. unfold delete. rewrite findByID_first by done.
  by rewrite take_drop_at.
Qed.

(** The handlers after a body was read: the store operation decides. *)
Lemma studentsHandler_post (rt : Runtime) (r : Request)
      (students : list Student) (c : Student) :
  Method r = MethodPost → readNewStudent rt r = inl c →
  studentsHandler rt r students = create students c.
Proof. intros Hm Hr. unfold studentsHandler. by rewrite Hm, Hr. Qed.

Lemma studentByIDHandler_put (rt : Runtime) (r : Request)
      (students : list Student) (id : Z) (u : Student) :
  Method r = MethodPut → Atoi rt (PathID r) = Some id →
  readUpdatedStudent rt r id = inl u →
  studentByIDHandler rt r students = update students u.
Proof. intros Hm Hid Hr. unfold studentByIDHandler. by rewrite Hm, Hid, Hr. Qed.

Lemma studentByIDHandler_get (rt : Runtime) (r : Request)
      (students : list Student) (id : Z) :
  Method r = MethodGet → Atoi rt (PathID r) = Some id →
  studentByIDHandler rt r students = (students, get students id).
Proof. intros Hm Hid. unfold studentByIDHandler. by rewrite Hm, Hid. Qed.

Lemma studentByIDHandler_delete (rt : Runtime) (r : Request)
      (students : list Student) (id : Z) :
  Method r = MethodDelete → Atoi rt (PathID r) = Some id →
  studentByIDHandler rt r students = delete students id.
Proof. intros Hm Hid. unfold studentByIDHandler. by rewrite Hm, Hid. Qed.

(** The replacement read by PUT carries the id of the path. *)
Lemma readUpdatedStudent_ID (rt : Runtime) (r : Request) (id : Z) (u : Student) :
  readUpdatedStudent rt r id = inl u → ID u = id.
Proof.
  unfold readUpdatedStudent.
  destruct (String.eqb (ContentType r) "application/json").
  - destruct (DecodeJSON rt (Body r) _); [|done]. by intros [= <-].
  - destruct (ParseForm rt r) as [FormValue|]; [|done].
    destruct (String.eqb (FormValue "age") ""); [done|].
    destruct (Atoi rt (FormValue "age")); [|done]. by intros [= <-].
Qed.

Lemma setID_ID (u : Student) : setID u (ID u) = u.
Proof. by destruct u. Qed.

(** A request leaves the store as it is or performs one store operation, so
    the stores the server can be in are the reachable ones. *)
Lemma serve_step (rt : Runtime) (students : list Student) (q : Route * Request) :
  fst (serve rt students q) = students ∨
  ∃ op, fst (serve rt students q) = apply_op students op.
Proof.
  destruct q as [[] r]; unfold serve; simpl.
  - unfold studentsHandler.
    destruct (String.eqb (Method r) MethodGet); [by left|].
    destruct (String.eqb (Method r) MethodPost); [|by left].
    destruct (readNewStudent rt r) as [c|resp]; [|by left].
    right. by exists (OpCreate c).
  - unfold studentByIDHandler.
    destruct (String.eqb (Method r) MethodGet).
    { destruct (Atoi rt (PathID r)); by left. }
    destruct (String.eqb (Method r) MethodPut).
    { destruct (Atoi rt (PathID r)) as [id|]; [|by left].
      destruct (readUpdatedStudent rt r id) as [u|resp] eqn:Hr; [|by left].
      right. exists (OpUpdate id u). simpl.
      apply readUpdatedStudent_ID in Hr as <-. by rewrite setID_ID. }
    destruct (String.eqb (Method r) MethodDelete); [|by left].
    destruct (Atoi rt (PathID r)) as [id|]; [|by left].
    right. by exists (OpDelete id).
Qed.

Lemma reachable_apply_op (students : list Student) (op : Op) :
  reachable students → reachable (apply_op students op).
Proof.
  intros [ops <-]. exists (ops ++ [op]). unfold run. by rewrite foldl_app.
Qed.

Lemma serve_all_reachable (rt : Runtime) (qs : list (Route * Request)) :
  reachable (serve_all rt qs).
Proof.
  induction qs as [|q qs IH] using rev_ind.
  - by exists [].
  - unfold serve_all in *. rewrite foldl_app. simpl.
    destruct (serve_step rt (foldl (λ students q, fst (serve rt students q)) [] qs) q)
      as [-> | [op ->]]; [done|].
    by apply reachable_apply_op.
Qed.

(** ** Unique ids (C1) *)

(** Creations alone number the records 1, 2, 3, ...: the id assigned is the
    position of the record in the slice. *)
Lemma create_only_ids (students : list Student) (candidate : Student) :
  len students < maxInt →
  ids students = Z.of_nat <$> seq 1 (length students) →
  ids (fst (create students candidate))
  = Z.of_nat <$> seq 1 (length (fst (create students candidate))).
Proof.
  intros Hlen Hids. unfold create.
  destruct (validateStudent candidate); [done|]. simpl.
  unfold ids in *. rewrite fmap_app, length_app, Hids. simpl.
  rewrite int_add_len by done.
  rewrite seq_app, fmap_app. simpl. unfold len. do 3 f_equal. lia.
Qed.

(** C1 (the code departs from the claim): the history create, create,
    delete(1), create is a sequence of store operations from the empty store,
    and it ends in a store whose two records both carry the id 2, because the
    third creation assigns [len(students) + 1 = 2] while the record created
    second still holds that id. *)
Theorem id_reused_after_delete :
  reachable (run history_reusing_id) ∧
  run history_reusing_id = [setID bob 2; setID carol 2] ∧
  ids (run history_reusing_id) = [2; 2] ∧
  ¬ NoDup (ids (run history_reusing_id)).
Proof.
  split_and!.
  - by exists history_reusing_id.
  - by vm_compute.
  - by vm_compute.
  - replace (ids (run history_reusing_id)) with [2; 2] by (by vm_compute).
    intros Hnd. apply NoDup_cons in Hnd as [Hnotin _].
    apply Hnotin. by left.
Qed.

(** The same defect through the handlers: three form posts and the deletion
    of /students/1 leave two records with the id 2. *)
Example id_reused_over_http :
  ids (serve_all sampleRuntime requests_reusing_id) = [2; 2].
Proof. by vm_compute. Qed.

(** ** Creation (C2) *)

(** C2: a candidate that passes validation is stored with the id
    [len(students) + 1] at the end of the slice, the response is 201 with the
    stored record, and the listing that follows holds the record (last).
    The bound on the length holds of every Go slice: [len] is an [int] and a
    slice of records of six words cannot have [maxInt] elements. *)
Theorem create_valid (students : list Student) (candidate : Student) :
  validateStudent candidate = None →
  len students < maxInt →
  ∃ stored,
    stored = setID candidate (len students + 1) ∧
    ID stored = len students + 1 ∧
    create students candidate
    = (students ++ [stored], mkResponse StatusCreated (StudentJSON stored)) ∧
    handleStudents (fst (create students candidate))
    = mkResponse StatusOK (StudentsJSON (students ++ [stored])) ∧
    stored ∈ students ++ [stored] ∧
    last (students ++ [stored]) = Some stored.
Proof.
  intros Hv Hlen. exists (setID candidate (len students + 1)).
  unfold create. rewrite Hv, int_add_len by done. simpl.
  split_and!; try done.
  - apply elem_of_app. right. by apply list_elem_of_singleton.
  - apply last_snoc.
Qed.

Lemma create_valid_witness :
  create [setID alice 1] bob
  = ([setID alice 1; setID bob 2],
     mkResponse StatusCreated (StudentJSON (setID bob 2))).
Proof.
  destruct (create_valid [setID alice 1] bob) as (stored & -> & _ & Hc & _).
  - reflexivity.
  - by vm_compute.
  - exact Hc.
Defined.

(** ** Validation (C3) *)

(** C3: the validator reports the first failing rule of the list
    name non-empty, age in [1,150], email non-empty; creation and update both
    answer 400 with the validator's message and leave the store alone; ages 0
    and 151 are rejected by both. *)
Theorem validation_order (students : list Student) (c : Student) :
  validateStudent c = first_failure validation_rules c ∧
  (Name c = "" → validateStudent c = Some "name is required") ∧
  (Name c ≠ "" → ¬ (1 ≤ Age c ≤ 150) →
   validateStudent c = Some "age must be between 1 and 150") ∧
  (Name c ≠ "" → 1 ≤ Age c ≤ 150 → Email c = "" →
   validateStudent c = Some "email is required") ∧
  (Name c ≠ "" → 1 ≤ Age c ≤ 150 → Email c ≠ "" → validateStudent c = None) ∧
  (∀ msg, validateStudent c = Some msg →
     create students c = (students, httpError msg StatusBadRequest) ∧
     update students c = (students, httpError msg StatusBadRequest)) ∧
  (Age c = 0 ∨ Age c = 151 →
     StatusCode (snd (create students c)) = 400 ∧
     StatusCode (snd (update students c)) = 400).
Proof.
  split_and!.
  - unfold validateStudent, first_failure, validation_rules.
    destruct (String.eqb (Name c) ""); [done|]. simpl.
    replace ((1 <=? Age c) && (Age c <=? 150))
      with (negb ((Age c <=? 0) || (Age c >? 150))) by lia.
    destruct ((Age c <=? 0) || (Age c >? 150)); [done|]. simpl.
    by destruct (String.eqb (Email c) "").
  - intros Hn. unfold validateStudent. by rewrite Hn.
  - intros Hn%eqb_empty_false Ha. unfold validateStudent. rewrite Hn.
    replace ((Age c <=? 0) || (Age c >? 150)) with true by lia. done.
  - intros Hn%eqb_empty_false Ha He. unfold validateStudent. rewrite Hn, He.
    replace ((Age c <=? 0) || (Age c >? 150)) with false by lia. done.
  - intros Hn Ha He. by apply validateStudent_None.
  - intros msg Hv. unfold create, update. by rewrite Hv.
  - intros Ha. unfold create, update, validateStudent.
    destruct (String.eqb (Name c) ""); [done|].
    replace ((Age c <=? 0) || (Age c >? 150)) with true by lia. done.
Qed.

Lemma validation_order_witness :
  validateStudent (mkStudent 0 "" 0 "") = Some "name is required" ∧
  validateStudent (mkStudent 0 "A" 151 "") = Some "age must be between 1 and 150" ∧
  validateStudent (mkStudent 0 "A" 150 "") = Some "email is required" ∧
  validateStudent (mkStudent 0 "A" 1 "a@b.com") = None ∧
  update [setID alice 1] (mkStudent 1 "A" 0 "a@b.com")
  = ([setID alice 1], httpError "age must be between 1 and 150" StatusBadRequest) ∧
  StatusCode (snd (create [] (mkStudent 0 "A" 151 "a@b.com"))) = 400.
Proof.
  split_and!.
  - by apply (validation_order [] (mkStudent 0 "" 0 "")).
  - apply (validation_order [] (mkStudent 0 "A" 151 "")); [done|simpl; lia].
  - apply (validation_order [] (mkStudent 0 "A" 150 "")); [done|simpl; lia|done].
  - apply (validation_order [] (mkStudent 0 "A" 1 "a@b.com")); [done|simpl; lia|done].
  - by apply (validation_order [setID alice 1] (mkStudent 1 "A" 0 "a@b.com")).
  - apply (validation_order [] (mkStudent 0 "A" 151 "a@b.com")). by right.
Defined.

(** ** Rejected creation (C4) *)

(** C4: a POST whose candidate fails validation is answered 400 with the
    validator's message and the store is the one before the request; the
    candidate with the empty name, age 20 and an email is such a candidate. *)
Theorem create_invalid_unchanged (rt : Runtime) (r : Request)
        (students : list Student) (c : Student) (msg : string) :
  Method r = MethodPost →
  readNewStudent rt r = inl c →
  validateStudent c = Some msg →
  studentsHandler rt r students = (students, httpError msg StatusBadRequest) ∧
  create students c = (students, httpError msg StatusBadRequest) ∧
  StatusCode (snd (create students c)) = 400 ∧
  create students (mkStudent 0 "" 20 "a@b.com")
  = (students, httpError "name is required" StatusBadRequest).
Proof.
  intros Hm Hr Hv.
  rewrite (studentsHandler_post rt r students c) by done.
  unfold create. rewrite Hv. done.
Qed.

Lemma create_invalid_unchanged_witness :
  studentsHandler sampleRuntime (mkRequest "POST" "application/json" "" "{}")
                  [setID alice 1]
  = ([setID alice 1], httpError "name is required" StatusBadRequest).
Proof.
  by apply (create_invalid_unchanged sampleRuntime
              (mkRequest "POST" "application/json" "" "{}")
              [setID alice 1] zeroStudent "name is required").
Defined.

(** ** Update then get (C5) *)

Lemma not_elem_of_ids (id : Z) (students : list Student) :
  id ∉ ids students ↔ Forall (λ student, ID student ≠ id) students.
Proof.
  unfold ids. rewrite Forall_forall. split.
  - intros Hnot st Hin Hid. apply Hnot. apply list_elem_of_fmap. by exists st.
  - intros Hall (st & Hid & Hin)%list_elem_of_fmap. by apply (Hall st).
Qed.

(** Every store that holds the id splits at the first record carrying it. *)
Lemma split_at_first (id : Z) (students : list Student) :
  id ∈ ids students →
  ∃ pre st post,
    students = pre ++ st :: post ∧
    Forall (λ student, ID student ≠ id) pre ∧ ID st = id.
Proof.
  intros (st & Hid & Hin)%list_elem_of_fmap.
  destruct (findByID_elem_of id students st Hin (eq_sym Hid)) as [[i st'] Hf].
  apply findByID_Some in Hf as (pre & post & Hs & _ & Hpre & Hst).
  by exists pre, st', post.
Qed.

(** C5: for an id held by the store and fields X that pass validation, the
    update succeeds and the get that follows returns the id with the name, age
    and email of X. *)
Theorem update_then_get (students : list Student) (id : Z) (X : Student) :
  id ∈ ids students →
  validateStudent X = None →
  ∃ students' got,
    update students (setID X id)
    = (students', mkResponse StatusOK (StudentJSON got)) ∧
    get students' id = mkResponse StatusOK (StudentJSON got) ∧
    ID got = id ∧ Name got = Name X ∧ Age got = Age X ∧ Email got = Email X.
Proof.
  intros Hin Hv.
  destruct (split_at_first id students Hin) as (pre & st & post & -> & Hpre & Hst).
  exists (pre ++ setID X id :: post), (setID X id). split_and!; try done.
  - by apply update_first.
  - by apply get_first.
Qed.

Lemma update_then_get_witness :
  ∃ students' got,
    update [setID alice 1; setID bob 2] (setID carol 2)
    = (students', mkResponse StatusOK (StudentJSON got)) ∧
    get students' 2 = mkResponse StatusOK (StudentJSON got) ∧
    ID got = 2 ∧ Name got = "Carol" ∧ Age got = 22 ∧
    Email got = "carol@example.com".
Proof.
  apply (update_then_get [setID alice 1; setID bob 2] 2 carol).
  - apply list_elem_of_fmap. exists (setID bob 2). split; [done|].
    apply elem_of_cons. right. by apply elem_of_cons; left.
  - reflexivity.
Defined.

(** ** Absent ids (C6) *)

(** C6: on an id that no record carries, get, update with valid fields and
    delete answer 404 and the store after update and delete is the store
    before. *)
Theorem absent_id_not_found (students : list Student) (id : Z) :
  id ∉ ids students →
  get students id = httpError "Student not found" StatusNotFound ∧
  StatusCode (get students id) = 404 ∧
  (∀ X, validateStudent X = None →
     update students (setID X id)
     = (students, httpError "Student not found" StatusNotFound)) ∧
  delete students id = (students, httpError "Student not found" StatusNotFound).
Proof.
  intros Hnot%not_elem_of_ids%findByID_None.
  unfold get, update, delete. rewrite Hnot. split_and!; try done.
  intros X Hv. rewrite validateStudent_setID, Hv. simpl. by rewrite Hnot.
Qed.

Lemma absent_id_not_found_witness :
  get [setID alice 1] 7 = httpError "Student not found" StatusNotFound ∧
  update [setID alice 1] (setID bob 7)
  = ([setID alice 1], httpError "Student not found" StatusNotFound) ∧
  delete [setID alice 1] 7
  = ([setID alice 1], httpError "Student not found" StatusNotFound).
Proof.
  assert (7 ∉ ids [setID alice 1]) as Hnot.
  { intros Hin. apply list_elem_of_singleton in Hin. discriminate Hin. }
  destruct (absent_id_not_found [setID alice 1] 7 Hnot) as (Hg & _ & Hu & Hd).
  split_and!; [exact Hg | by apply (Hu bob) | exact Hd].
Defined.

(** ** Delete then get (C7) *)

(** Where the ids of the store are pairwise different, a deleted id is gone:
    the get that follows answers 404 and no listed record carries the id. *)
Lemma delete_then_get_unique (students : list Student) (id : Z) :
  NoDup (ids students) → id ∈ ids students →
  ∃ students',
    delete students id = (students', mkResponse StatusNoContent NoBody) ∧
    get students' id = httpError "Student not found" StatusNotFound ∧
    id ∉ ids students'.
Proof.
  intros Hnd Hin.
  destruct (split_at_first id students Hin) as (pre & st & post & -> & Hpre & Hst).
  exists (pre ++ post). rewrite delete_first by done.
  assert (id ∉ ids (pre ++ post)) as Hgone.
  { unfold ids in *. rewrite fmap_app in *. simpl in Hnd.
    apply NoDup_app in Hnd as (_ & _ & Hpost).
    apply NoDup_cons in Hpost as [Hpost _]. rewrite Hst in Hpost.
    rewrite elem_of_app. intros [Hl|Hr]; [|done].
    by apply (proj2 (not_elem_of_ids id pre)) in Hpre. }
  split_and!; [done| |done].
  apply not_elem_of_ids, findByID_None in Hgone. unfold get. by rewrite Hgone.
Qed.

(** C7 (the code departs from the claim): the store reached by create,
    create, delete(1), create holds the id 2 twice; delete(2) answers 204 and
    removes the first of the two records only, so the get that follows
    answers 200 with the other one and the listing still holds the id 2. *)
Theorem deleted_id_still_served :
  reachable (run history_reusing_id) ∧
  2 ∈ ids (run history_reusing_id) ∧
  delete (run history_reusing_id) 2
  = ([setID carol 2], mkResponse StatusNoContent NoBody) ∧
  get (fst (delete (run history_reusing_id) 2)) 2
  = mkResponse StatusOK (StudentJSON (setID carol 2)) ∧
  handleStudents (fst (delete (run history_reusing_id) 2))
  = mkResponse StatusOK (StudentsJSON [setID carol 2]) ∧
  2 ∈ ids (fst (delete (run history_reusing_id) 2)).
Proof.
  split_and!.
  - by exists history_reusing_id.
  - replace (ids (run history_reusing_id)) with [2; 2] by (by vm_compute).
    by apply elem_of_cons; left.
  - by vm_compute.
  - by vm_compute.
  - by vm_compute.
  - replace (ids (fst (delete (run history_reusing_id) 2))) with [2]
      by (by vm_compute).
    by apply list_elem_of_singleton.
Qed.

(** ** Choice of the body format (C8) *)

Lemma content_type_json (r : Request) :
  String.eqb (ContentType r) "application/json" = true
  ↔ ContentType r = "application/json".
Proof. apply String.eqb_eq. Qed.

Lemma content_type_other (r : Request) :
  String.eqb (ContentType r) "application/json" = false
  ↔ ContentType r ≠ "application/json".
Proof. apply String.eqb_neq. Qed.

(** With the JSON header the candidate is the decoder's record. *)
Lemma readNewStudent_json (rt : Runtime) (r : Request) :
  ContentType r = "application/json" →
  readNewStudent rt r
  = match DecodeJSON rt (Body r) zeroStudent with
    | Some s => inl s
    | None => inr (httpError "Invalid JSON data" StatusBadRequest)
    end.
Proof.
  intros Hct%content_type_json. unfold readNewStudent. rewrite Hct.
  by destruct (DecodeJSON _ _ _).
Qed.

(** With the JSON header the replacement is the decoder's record with the id
    of the path written over it (line 211). *)
Lemma readUpdatedStudent_json (rt : Runtime) (r : Request) (id : Z) :
  ContentType r = "application/json" →
  readUpdatedStudent rt r id
  = match DecodeJSON rt (Body r) (setID zeroStudent id) with
    | Some s => inl (setID s id)
    | None => inr (httpError "Invalid JSON data" StatusBadRequest)
    end.
Proof.
  intros Hct%content_type_json. unfold readUpdatedStudent. rewrite Hct.
  by destruct (DecodeJSON _ _ _).
Qed.

(** The form branch of the two handlers once [ParseForm] has given the
    values. *)
Lemma studentsHandler_form (rt : Runtime) (r : Request) (students : list Student)
      (values : Values) :
  ContentType r ≠ "application/json" → Method r = "POST" →
  ParseForm rt r = Some (λ key, Values_Get key values) →
  studentsHandler rt r students = createFromValues (Atoi rt) students values.
Proof.
  intros Hct%content_type_other Hm Hp.
  unfold studentsHandler, readNewStudent, createFromValues.
  rewrite Hm, Hct, Hp. simpl.
  destruct (String.eqb (Values_Get "age" values) ""); [done|].
  by destruct (Atoi rt (Values_Get "age" values)).
Qed.

Lemma studentByIDHandler_form (rt : Runtime) (r : Request)
      (students : list Student) (id : Z) (values : Values) :
  ContentType r ≠ "application/json" → Method r = "PUT" →
  Atoi rt (PathID r) = Some id →
  ParseForm rt r = Some (λ key, Values_Get key values) →
  studentByIDHandler rt r students = updateFromValues (Atoi rt) students id values.
Proof.
  intros Hct%content_type_other Hm Hid Hp.
  unfold studentByIDHandler, readUpdatedStudent, updateFromValues.
  rewrite Hm, Hid, Hct, Hp. simpl.
  destruct (String.eqb (Values_Get "age" values) ""); [done|].
  by destruct (Atoi rt (Values_Get "age" values)).
Qed.

Lemma studentsHandler_form_error (rt : Runtime) (r : Request)
      (students : list Student) :
  ContentType r ≠ "application/json" → Method r = "POST" →
  ParseForm rt r = None →
  studentsHandler rt r students
  = (students, httpError "Invalid form data" StatusBadRequest).
Proof.
  intros Hct%content_type_other Hm Hp.
  unfold studentsHandler, readNewStudent. by rewrite Hm, Hct, Hp.
Qed.

Lemma studentByIDHandler_form_error (rt : Runtime) (r : Request)
      (students : list Student) (id : Z) :
  ContentType r ≠ "application/json" → Method r = "PUT" →
  Atoi rt (PathID r) = Some id →
  ParseForm rt r = None →
  studentByIDHandler rt r students
  = (students, httpError "Invalid form data" StatusBadRequest).
Proof.
  intros Hct%content_type_other Hm Hid Hp.
  unfold studentByIDHandler, readUpdatedStudent. by rewrite Hm, Hid, Hct, Hp.
Qed.

(** [ParseForm] of the library on the requests of the two handlers. *)
Lemma Request_ParseForm_write (lib : FormLibrary) (r : Request) :
  Method r = "POST" ∨ Method r = "PUT" →
  Request_ParseForm lib r
  = match parsePostForm lib r, ParseQuery lib (RawQuery lib r) with
    | Some postForm, Some newValues =>
        Some (λ key, Values_Get key (postForm ++ newValues))
    | _, _ => None
    end.
Proof. intros [Hm|Hm]; unfold Request_ParseForm; by rewrite Hm. Qed.

(** C8, with the form branch as net/http performs it: with the header equal
    to "application/json" POST and PUT hand the body to the JSON decoder and
    go on with its record.
    With any other header they take the form branch, [r.ParseForm] and
    [r.FormValue]: the body is parsed as form-encoded data when the media
    type of the header is application/x-www-form-urlencoded, and the values
    are then those of the body followed by those of the URL query; for every
    other media type the body is not read and the values are those of the
    URL query alone.  An error of one of the parsers is answered 400
    "Invalid form data". *)
Theorem body_format_by_content_type
        (decode : string → Student → option Student) (lib : FormLibrary)
        (atoi : string → option Z) (r : Request) (id : Z)
        (students : list Student) :
  (ContentType r = "application/json" →
     (Method r = "POST" →
      studentsHandler (netHTTP decode lib atoi) r students
      = match decode (Body r) zeroStudent with
        | Some newStudent => create students newStudent
        | None => (students, httpError "Invalid JSON data" StatusBadRequest)
        end) ∧
     (Method r = "PUT" → atoi (PathID r) = Some id →
      studentByIDHandler (netHTTP decode lib atoi) r students
      = match decode (Body r) (setID zeroStudent id) with
        | Some updatedStudent => update students (setID updatedStudent id)
        | None => (students, httpError "Invalid JSON data" StatusBadRequest)
        end)) ∧
  (ContentType r ≠ "application/json" →
     (∀ mediatype query,
        ParseMediaType lib (formContentType r) = Some mediatype →
        ParseQuery lib (RawQuery lib r) = Some query →
        (mediatype = "application/x-www-form-urlencoded" →
         ∀ post, ReadForm lib (Body r) = Some post →
           (Method r = "POST" →
            studentsHandler (netHTTP decode lib atoi) r students
            = createFromValues atoi students (post ++ query)) ∧
           (Method r = "PUT" → atoi (PathID r) = Some id →
            studentByIDHandler (netHTTP decode lib atoi) r students
            = updateFromValues atoi students id (post ++ query))) ∧
        (mediatype ≠ "application/x-www-form-urlencoded" →
           (Method r = "POST" →
            studentsHandler (netHTTP decode lib atoi) r students
            = createFromValues atoi students query) ∧
           (Method r = "PUT" → atoi (PathID r) = Some id →
            studentByIDHandler (netHTTP decode lib atoi) r students
            = updateFromValues atoi students id query))) ∧
     (ParseMediaType lib (formContentType r) = None ∨
      ParseQuery lib (RawQuery lib r) = None ∨
      (ParseMediaType lib (formContentType r)
       = Some "application/x-www-form-urlencoded" ∧
       ReadForm lib (Body r) = None) →
      (Method r = "POST" →
       studentsHandler (netHTTP decode lib atoi) r students
       = (students, httpError "Invalid form data" StatusBadRequest)) ∧
      (Method r = "PUT" → atoi (PathID r) = Some id →
       studentByIDHandler (netHTTP decode lib atoi) r students
       = (students, httpError "Invalid form data" StatusBadRequest)))).
Proof.
  split.
  - intros Hct. split.
    + intros Hm. unfold studentsHandler. rewrite Hm. simpl.
      rewrite readNewStudent_json by done. simpl.
      by destruct (decode (Body r) zeroStudent).
    + intros Hm Hid. unfold studentByIDHandler. rewrite Hm. simpl.
      rewrite Hid, readUpdatedStudent_json by done. simpl.
      by destruct (decode (Body r) (setID zeroStudent id)).
  - intros Hct. split.
    + intros mediatype query Hmt Hq. split.
      * intros -> post Hpost.
        assert (Method r = "POST" ∨ Method r = "PUT" →
                ParseForm (netHTTP decode lib atoi) r
                = Some (λ key, Values_Get key (post ++ query))) as Hform.
        { intros Hm. simpl. rewrite Request_ParseForm_write by done.
          unfold parsePostForm.
          by rewrite Hmt, Hq, Hpost. }
        split.
        -- intros Hm. by apply (studentsHandler_form (netHTTP decode lib atoi)); auto.
        -- intros Hm Hid.
           by apply (studentByIDHandler_form (netHTTP decode lib atoi)); auto.
      * intros Hother%String.eqb_neq.
        assert (Method r = "POST" ∨ Method r = "PUT" →
                ParseForm (netHTTP decode lib atoi) r
                = Some (λ key, Values_Get key query)) as Hform.
        { intros Hm. simpl. rewrite Request_ParseForm_write by done.
          unfold parsePostForm.
          by rewrite Hmt, Hq, Hother. }
        split.
        -- intros Hm. by apply (studentsHandler_form (netHTTP decode lib atoi)); auto.
        -- intros Hm Hid.
           by apply (studentByIDHandler_form (netHTTP decode lib atoi)); auto.
    + intros Herr.
      assert (Method r = "POST" ∨ Method r = "PUT" →
              ParseForm (netHTTP decode lib atoi) r = None) as Hform.
      { intros Hm. simpl. rewrite Request_ParseForm_write by done.
        unfold parsePostForm.
        destruct Herr as [Hmt|[Hq|[Hmt Hpost]]].
        - by rewrite Hmt.
        - rewrite Hq. by destruct (ParseMediaType lib (formContentType r)) as [mt|];
            [destruct (if String.eqb mt _ then _ else _)|].
        - by rewrite Hmt, Hpost. }
      split.
      * intros Hm.
        by apply (studentsHandler_form_error (netHTTP decode lib atoi)); auto.
      * intros Hm Hid.
        by apply (studentByIDHandler_form_error (netHTTP decode lib atoi) r students id);
          auto.
Qed.

Lemma body_format_by_content_type_witness :
  studentsHandler goRuntime (mkRequest "POST" "application/json" "" "{}") []
  = ([], httpError "name is required" StatusBadRequest) ∧
  studentByIDHandler goRuntime (mkRequest "PUT" "application/json" "1" "")
                     [setID alice 1]
  = ([setID alice 1], httpError "Invalid JSON data" StatusBadRequest) ∧
  studentsHandler goRuntime
    (mkRequest "POST" "application/x-www-form-urlencoded" "" janeBody) []
  = ([mkStudent 1 "Jane" 22 "jane@x.com"],
     mkResponse StatusCreated (StudentJSON (mkStudent 1 "Jane" 22 "jane@x.com"))) ∧
  studentByIDHandler goRuntime
    (mkRequest "PUT" "application/x-www-form-urlencoded; charset=utf-8" "1" janeBody)
    [setID alice 1]
  = ([mkStudent 1 "Jane" 22 "jane@x.com"],
     mkResponse StatusOK (StudentJSON (mkStudent 1 "Jane" 22 "jane@x.com"))) ∧
  studentsHandler goRuntime (mkRequest "POST" "text/plain" "" janeBody) []
  = ([], httpError "Age is required" StatusBadRequest) ∧
  studentsHandler goRuntime
    (mkRequest "POST" "application/x-www-form-urlencoded" "" "age=%zz") []
  = ([], httpError "Invalid form data" StatusBadRequest).
Proof.
  unfold goRuntime. split_and!.
  - destruct (body_format_by_content_type decodeEmptyObject goFormLibrary
                strconv_Atoi (mkRequest "POST" "application/json" "" "{}") 0 [])
      as [Hjson _].
    destruct (Hjson eq_refl) as [Hpost _]. rewrite (Hpost eq_refl). reflexivity.
  - destruct (body_format_by_content_type decodeEmptyObject goFormLibrary
                strconv_Atoi (mkRequest "PUT" "application/json" "1" "") 1
                [setID alice 1]) as [Hjson _].
    destruct (Hjson eq_refl) as [_ Hput]. rewrite (Hput eq_refl eq_refl).
    reflexivity.
  - destruct (body_format_by_content_type decodeEmptyObject goFormLibrary
                strconv_Atoi
                (mkRequest "POST" "application/x-www-form-urlencoded" "" janeBody)
                0 []) as [_ Hform].
    destruct Hform as [Hvalues _]; [discriminate|].
    destruct (Hvalues "application/x-www-form-urlencoded" [] eq_refl eq_refl)
      as [Hbody _].
    destruct (Hbody eq_refl janeValues eq_refl) as [Hpost _].
    rewrite (Hpost eq_refl). reflexivity.
  - destruct (body_format_by_content_type decodeEmptyObject goFormLibrary
                strconv_Atoi
                (mkRequest "PUT" "application/x-www-form-urlencoded; charset=utf-8"
                           "1" janeBody)
                1 [setID alice 1]) as [_ Hform].
    destruct Hform as [Hvalues _]; [discriminate|].
    destruct (Hvalues "application/x-www-form-urlencoded" [] eq_refl eq_refl)
      as [Hbody _].
    destruct (Hbody eq_refl janeValues eq_refl) as [_ Hput].
    rewrite (Hput eq_refl eq_refl). reflexivity.
  - destruct (body_format_by_content_type decodeEmptyObject goFormLibrary
                strconv_Atoi (mkRequest "POST" "text/plain" "" janeBody) 0 [])
      as [_ Hform].
    destruct Hform as [Hvalues _]; [discriminate|].
    destruct (Hvalues "text/plain" [] eq_refl eq_refl) as [_ Hquery].
    destruct Hquery as [Hpost _]; [discriminate|].
    rewrite (Hpost eq_refl). reflexivity.
  - destruct (body_format_by_content_type decodeEmptyObject goFormLibrary
                strconv_Atoi
                (mkRequest "POST" "application/x-www-form-urlencoded" "" "age=%zz")
                0 []) as [_ Hform].
    destruct Hform as [_ Herror]; [discriminate|].
    destruct Herror as [Hpost _]; [right; right; by split|].
    exact (Hpost eq_refl).
Defined.

(** C8 does not hold where it says that every other header value causes the
    body to be parsed as form-encoded data.  With the header
    "application/json; charset=utf-8" the handler does not take the JSON
    branch, but the body is not parsed as form-encoded data either: the
    media type is application/json, [ParseForm] leaves the body unread, the
    form has no value for [age] and the POST is answered 400 "Age is
    required", where the values of the body would have created Jane (as they
    do under application/x-www-form-urlencoded). *)
Lemma json_charset_body_not_parsed :
  ContentType (mkRequest "POST" "application/json; charset=utf-8" "" janeBody)
  ≠ "application/json" ∧
  url_ParseQuery janeBody = Some janeValues ∧
  createFromValues strconv_Atoi [] janeValues
  = ([mkStudent 1 "Jane" 22 "jane@x.com"],
     mkResponse StatusCreated (StudentJSON (mkStudent 1 "Jane" 22 "jane@x.com"))) ∧
  studentsHandler goRuntime
    (mkRequest "POST" "application/json; charset=utf-8" "" janeBody) []
  = ([], httpError "Age is required" StatusBadRequest) ∧
  studentsHandler goRuntime
    (mkRequest "POST" "application/json; charset=utf-8" "" janeBody) []
  ≠ createFromValues strconv_Atoi [] janeValues ∧
  studentsHandler goRuntime
    (mkRequest "POST" "application/x-www-form-urlencoded" "" janeBody) []
  = createFromValues strconv_Atoi [] janeValues.
Proof.
  split_and!.
  - discriminate.
  - by vm_compute.
  - by vm_compute.
  - by vm_compute.
  - vm_compute. discriminate.
  - by vm_compute.
Qed.

(** ** The id of the body is ignored (C9) *)

(** C9: whatever record the JSON decoder returns, a successful POST stores it
    under the id [len(students) + 1] and a successful PUT stores it under the
    id of the path, in the place of the first record carrying that id. *)
Theorem body_id_ignored (rt : Runtime) (r : Request) (students : list Student)
        (decoded : Student) :
  ContentType r = "application/json" →
  validateStudent decoded = None →
  (Method r = MethodPost →
   DecodeJSON rt (Body r) zeroStudent = Some decoded →
   len students < maxInt →
   ∃ stored,
     studentsHandler rt r students
     = (students ++ [stored], mkResponse StatusCreated (StudentJSON stored)) ∧
     ID stored = len students + 1 ∧
     stored = setID decoded (len students + 1)) ∧
  (Method r = MethodPut →
   ∀ id, Atoi rt (PathID r) = Some id →
   DecodeJSON rt (Body r) (setID zeroStudent id) = Some decoded →
   id ∈ ids students →
   ∃ pre st post stored,
     students = pre ++ st :: post ∧
     Forall (λ student, ID student ≠ id) pre ∧ ID st = id ∧
     studentByIDHandler rt r students
     = (pre ++ stored :: post, mkResponse StatusOK (StudentJSON stored)) ∧
     ID stored = id ∧
     stored = setID decoded id).
Proof.
  intros Hct Hv. split.
  - intros Hm Hd Hlen. exists (setID decoded (len students + 1)).
    pose proof (readNewStudent_json rt r Hct) as Hread. rewrite Hd in Hread.
    rewrite (studentsHandler_post rt r students decoded) by done.
    unfold create. by rewrite Hv, int_add_len.
  - intros Hm id Hid Hd Hin.
    destruct (split_at_first id students Hin) as (pre & st & post & -> & Hpre & Hst).
    exists pre, st, post, (setID decoded id).
    pose proof (readUpdatedStudent_json rt r id Hct) as Hread.
    rewrite Hd in Hread.
    rewrite (studentByIDHandler_put rt r _ id (setID decoded id)) by done.
    split_and!; try done.
    by apply update_first.
Qed.

Lemma body_id_ignored_witness :
  studentsHandler sampleRuntime (mkRequest "POST" "application/json" "" "Dana")
                  [setID alice 1]
  = ([setID alice 1; mkStudent 2 "Dana" 30 "json@example.com"],
     mkResponse StatusCreated
                (StudentJSON (mkStudent 2 "Dana" 30 "json@example.com"))) ∧
  studentByIDHandler sampleRuntime
                     (mkRequest "PUT" "application/json" "1" "Dana")
                     [setID alice 1; setID bob 2]
  = ([mkStudent 1 "Dana" 30 "json@example.com"; setID bob 2],
     mkResponse StatusOK (StudentJSON (mkStudent 1 "Dana" 30 "json@example.com"))).
Proof.
  split.
  - destruct (body_id_ignored sampleRuntime
                (mkRequest "POST" "application/json" "" "Dana")
                [setID alice 1] (mkStudent 99 "Dana" 30 "json@example.com")
                eq_refl eq_refl) as [Hpost _].
    destruct Hpost as (stored & Hh & _ & ->); [done|done|by vm_compute|].
    exact Hh.
  - destruct (body_id_ignored sampleRuntime
                (mkRequest "PUT" "application/json" "1" "Dana")
                [setID alice 1; setID bob 2]
                (mkStudent 99 "Dana" 30 "json@example.com")
                eq_refl eq_refl) as [_ Hput].
    assert (1 ∈ ids [setID alice 1; setID bob 2]) as Hin
      by (by apply elem_of_cons; left).
    destruct (Hput eq_refl 1 eq_refl eq_refl Hin)
      as (pre & st & post & stored & Hsplit & Hpre & Hst & Hh & _ & ->).
    rewrite Hh. clear Hh Hin Hput.
    destruct pre as [|p pre].
    + by injection Hsplit as <- <-.
    + injection Hsplit as <- Hrest.
      apply Forall_cons in Hpre as [Hp _]. by destruct Hp.
Defined.

(** ** First match (C10) *)

(** C10: a store that holds the id splits into the records before the first
    one carrying it (none of which carries it), that record, and the rest.
    Get answers with that record; update with valid fields puts the new
    record in its place; delete takes it out; in both cases the records
    before and after stay as they are and in their order. *)
Theorem first_match_only (students : list Student) (id : Z) :
  id ∈ ids students →
  ∃ pre st post,
    students = pre ++ st :: post ∧
    Forall (λ student, ID student ≠ id) pre ∧ ID st = id ∧
    get students id = mkResponse StatusOK (StudentJSON st) ∧
    (∀ X, validateStudent X = None →
       update students (setID X id)
       = (pre ++ setID X id :: post,
          mkResponse StatusOK (StudentJSON (setID X id)))) ∧
    delete students id = (pre ++ post, mkResponse StatusNoContent NoBody) ∧
    length (fst (delete students id)) = (length students - 1)%nat.
Proof.
  intros Hin.
  destruct (split_at_first id students Hin) as (pre & st & post & -> & Hpre & Hst).
  exists pre, st, post. split_and!; try done.
  - by apply get_first.
  - intros X Hv. by apply update_first.
  - by apply delete_first.
  - rewrite delete_first by done. simpl. rewrite !length_app. simpl. lia.
Qed.

Lemma first_match_only_witness :
  get [setID alice 1; setID bob 2; setID carol 2] 2
  = mkResponse StatusOK (StudentJSON (setID bob 2)) ∧
  update [setID alice 1; setID bob 2; setID carol 2] (setID alice 2)
  = ([setID alice 1; setID alice 2; setID carol 2],
     mkResponse StatusOK (StudentJSON (setID alice 2))) ∧
  delete [setID alice 1; setID bob 2; setID carol 2] 2
  = ([setID alice 1; setID carol 2], mkResponse StatusNoContent NoBody).
Proof.
  assert (2 ∈ ids [setID alice 1; setID bob 2; setID carol 2]) as Hin.
  { apply elem_of_cons. right. by apply elem_of_cons; left. }
  destruct (first_match_only [setID alice 1; setID bob 2; setID carol 2] 2 Hin)
    as (pre & st & post & Hsplit & Hpre & Hst & Hget & Hupd & Hdel & _).
  rewrite Hget, (Hupd alice eq_refl), Hdel. clear Hget Hupd Hdel Hin.
  destruct pre as [|p0 pre].
  { injection Hsplit as <- _. discriminate Hst. }
  injection Hsplit as <- Hsplit.
  destruct pre as [|p1 pre].
  { by injection Hsplit as <- <-. }
  injection Hsplit as <- Hsplit.
  apply Forall_cons in Hpre as [_ Hpre].
  apply Forall_cons in Hpre as [Hp _]. by destruct Hp.
Defined.

(** The session of the specification, through the handlers: post, get, put,
    delete, get. *)
Example end_to_end :
  let post := mkRequest "POST" "application/x-www-form-urlencoded" "" "Jane" in
  let put := mkRequest "PUT" "application/x-www-form-urlencoded" "1" "Jane2" in
  let s1 := studentsHandler sampleRuntime post [] in
  let g1 := studentByIDHandler sampleRuntime (mkRequest "GET" "" "1" "") (fst s1) in
  let s2 := studentByIDHandler sampleRuntime put (fst g1) in
  let s3 := studentByIDHandler sampleRuntime (mkRequest "DELETE" "" "1" "") (fst s2) in
  let g2 := studentByIDHandler sampleRuntime (mkRequest "GET" "" "1" "") (fst s3) in
  snd s1 = mkResponse 201 (StudentJSON (mkStudent 1 "Jane" 20 "form@example.com")) ∧
  snd g1 = mkResponse 200 (StudentJSON (mkStudent 1 "Jane" 20 "form@example.com")) ∧
  snd s2 = mkResponse 200 (StudentJSON (mkStudent 1 "Jane2" 20 "form@example.com")) ∧
  snd s3 = mkResponse 204 NoBody ∧
  snd g2 = httpError "Student not found" 404 ∧
  fst g2 = [].
Proof. by vm_compute. Qed.

(** * Further properties of the store and of the handlers *)

(** ** Helper facts *)

Lemma create_valid_records (students : list Student) (c : Student) :
  Forall valid students → Forall valid (fst (create students c)).
Proof.
  intros Hall. unfold create. destruct (validateStudent c) eqn:Hv; [done|].
  simpl. apply Forall_app. split; [done|]. apply Forall_singleton.
  unfold valid. by rewrite validateStudent_setID.
Qed.

Lemma update_valid_records (students : list Student) (u : Student) :
  Forall valid students → Forall valid (fst (update students u)).
Proof.
  intros Hall. unfold update. destruct (validateStudent u) eqn:Hv; [done|].
  destruct (findByID (ID u) students) as [[i st]|]; [|done].
  simpl. by apply Forall_insert.
Qed.

Lemma delete_valid_records (students : list Student) (id : Z) :
  Forall valid students → Forall valid (fst (delete students id)).
Proof.
  intros Hall. unfold delete.
  destruct (findByID id students) as [[i st]|]; [|done].
  simpl. apply Forall_app. split; [by apply Forall_take|by apply Forall_drop].
Qed.

Lemma apply_op_valid_records (students : list Student) (op : Op) :
  Forall valid students → Forall valid (apply_op students op).
Proof.
  destruct op; simpl;
    auto using create_valid_records, update_valid_records, delete_valid_records.
Qed.

Lemma method_eqb_true (m name : string) : String.eqb m name = true ↔ m = name.
Proof. apply String.eqb_eq. Qed.

Lemma method_eqb_false (m name : string) : String.eqb m name = false ↔ m ≠ name.
Proof. apply String.eqb_neq. Qed.

(** A body that cannot be read is answered 400. *)
Lemma readNewStudent_inr (rt : Runtime) (r : Request) (resp : Response) :
  readNewStudent rt r = inr resp → StatusCode resp = 400.
Proof.
  unfold readNewStudent.
  destruct (String.eqb (ContentType r) "application/json").
  - destruct (DecodeJSON rt (Body r) _); [done|]. by intros [= <-].
  - destruct (ParseForm rt r) as [FormValue|]; [|by intros [= <-]].
    destruct (String.eqb (FormValue "age") ""); [by intros [= <-]|].
    destruct (Atoi rt (FormValue "age")); [done|]. by intros [= <-].
Qed.

Lemma readUpdatedStudent_inr (rt : Runtime) (r : Request) (id : Z) (resp : Response) :
  readUpdatedStudent rt r id = inr resp → StatusCode resp = 400.
Proof.
  unfold readUpdatedStudent.
  destruct (String.eqb (ContentType r) "application/json").
  - destruct (DecodeJSON rt (Body r) _); [done|]. by intros [= <-].
  - destruct (ParseForm rt r) as [FormValue|]; [|by intros [= <-]].
    destruct (String.eqb (FormValue "age") ""); [by intros [= <-]|].
    destruct (Atoi rt (FormValue "age")); [done|]. by intros [= <-].
Qed.

(** The outcomes of the three writing operations, by status. *)
Lemma create_cases (students : list Student) (c : Student) :
  (fst (create students c) = students ∧ StatusCode (snd (create students c)) = 400) ∨
  (∃ stored, fst (create students c) = students ++ [stored] ∧
             StatusCode (snd (create students c)) = 201).
Proof.
  unfold create. destruct (validateStudent c); [by left|]. right. by eexists.
Qed.

Lemma update_cases (students : list Student) (u : Student) :
  (fst (update students u) = students ∧
   (StatusCode (snd (update students u)) = 400 ∨
    StatusCode (snd (update students u)) = 404)) ∨
  (length (fst (update students u)) = length students ∧
   StatusCode (snd (update students u)) = 200).
Proof.
  unfold update. destruct (validateStudent u); [left; auto|].
  destruct (findByID (ID u) students) as [[i st]|]; [|left; auto].
  right. simpl. by rewrite length_insert.
Qed.

Lemma delete_cases (students : list Student) (id : Z) :
  (fst (delete students id) = students ∧
   StatusCode (snd (delete students id)) = 404) ∨
  (S (length (fst (delete students id))) = length students ∧
   StatusCode (snd (delete students id)) = 204).
Proof.
  unfold delete. destruct (findByID id students) as [[i st]|] eqn:Hf; [|by left].
  right. apply findByID_Some in Hf as (pre & post & -> & <- & _ & _).
  rewrite take_drop_at. simpl. rewrite !length_app. simpl. split; [lia|done].
Qed.

(** ** The store holds validated records only (X1) *)

(** X1: every record of a store reached by store operations, or by requests
    served from the empty store, passes [validateStudent]: creation and
    update validate what they store and deletion only removes. *)
Theorem stored_records_valid (rt : Runtime) (ops : list Op)
        (qs : list (Route * Request)) :
  Forall (λ student, validateStudent student = None) (run ops) ∧
  Forall (λ student, validateStudent student = None) (serve_all rt qs).
Proof.
  assert (∀ ops, Forall valid (run ops)) as Hrun.
  { intros os. induction os as [|op os IH] using rev_ind; [by constructor|].
    unfold run in *. rewrite foldl_app. simpl. by apply apply_op_valid_records. }
  split; [apply Hrun|].
  induction qs as [|q qs IH] using rev_ind; [by constructor|].
  unfold serve_all in *. rewrite foldl_app. simpl.
  destruct (serve_step rt (foldl (λ students q, fst (serve rt students q)) [] qs) q)
    as [-> | [op ->]]; [done|].
  by apply apply_op_valid_records.
Qed.

(** ** Which requests change the store (X2, X3) *)

(** X2: a request changes the store only if it is a POST on /students
    answered 201, a PUT on /students/{id} answered 200 or a DELETE on
    /students/{id} answered 204; in particular no GET and no request answered
    with an error changes it. *)
Theorem store_changes_only_on_success (rt : Runtime) (students : list Student)
        (q : Route * Request) :
  fst (serve rt students q) ≠ students →
  (fst q = RouteStudents ∧ Method (snd q) = "POST" ∧
   StatusCode (snd (serve rt students q)) = 201) ∨
  (fst q = RouteStudentByID ∧ Method (snd q) = "PUT" ∧
   StatusCode (snd (serve rt students q)) = 200) ∨
  (fst q = RouteStudentByID ∧ Method (snd q) = "DELETE" ∧
   StatusCode (snd (serve rt students q)) = 204).
Proof.
  destruct q as [[] r]; unfold serve; simpl.
  - unfold studentsHandler.
    destruct (String.eqb (Method r) MethodGet); [done|].
    destruct (String.eqb (Method r) MethodPost) eqn:Hm; [|done].
    apply method_eqb_true in Hm.
    destruct (readNewStudent rt r) as [c|resp]; [|done].
    destruct (create_cases students c) as [[Heq _]|(stored & _ & Hst)]; [done|].
    intros _. left. by rewrite Hm.
  - unfold studentByIDHandler.
    destruct (String.eqb (Method r) MethodGet).
    { by destruct (Atoi rt (PathID r)). }
    destruct (String.eqb (Method r) MethodPut) eqn:Hput.
    { apply method_eqb_true in Hput.
      destruct (Atoi rt (PathID r)) as [id|]; [|done].
      destruct (readUpdatedStudent rt r id) as [u|resp]; [|done].
      destruct (update_cases students u) as [[Heq _]|[_ Hst]]; [done|].
      intros _. right; left. by rewrite Hput. }
    destruct (String.eqb (Method r) MethodDelete) eqn:Hdel; [|done].
    apply method_eqb_true in Hdel.
    destruct (Atoi rt (PathID r)) as [id|]; [|done].
    destruct (delete_cases students id) as [[Heq _]|[_ Hst]]; [done|].
    intros _. right; right. by rewrite Hdel.
Qed.

Lemma store_changes_only_on_success_witness :
  Method (mkRequest "DELETE" "" "1" "") = "DELETE" ∧
  StatusCode (snd (serve sampleRuntime [setID alice 1]
                         (RouteStudentByID, mkRequest "DELETE" "" "1" ""))) = 204.
Proof.
  destruct (store_changes_only_on_success sampleRuntime [setID alice 1]
              (RouteStudentByID, mkRequest "DELETE" "" "1" ""))
    as [(Hr & _)|[(_ & Hm & _)|(_ & Hm & Hst)]].
  - by vm_compute.
  - discriminate Hr.
  - discriminate Hm.
  - by split.
Defined.

(** Membership of a status code in an explicit list of codes. *)
Ltac status_in := rewrite !elem_of_cons; repeat (first [by left | right]).

(** X3: the two routes answer with one of the codes 200, 201, 204, 400, 404,
    405 only, and the code tells the size of the store afterwards: one more
    record after 201, one less after 204, as many as before otherwise. *)
Theorem length_by_status (rt : Runtime) (students : list Student)
        (q : Route * Request) :
  StatusCode (snd (serve rt students q)) ∈ [200; 201; 204; 400; 404; 405] ∧
  length (fst (serve rt students q))
  = if StatusCode (snd (serve rt students q)) =? 201 then S (length students)
    else if StatusCode (snd (serve rt students q)) =? 204
         then pred (length students)
         else length students.
Proof.
  assert (∀ c, StatusCode (snd (create students c)) ∈ [200; 201; 204; 400; 404; 405] ∧
    length (fst (create students c))
    = if StatusCode (snd (create students c)) =? 201 then S (length students)
      else if StatusCode (snd (create students c)) =? 204
           then pred (length students) else length students) as Hcreate.
  { intros c. destruct (create_cases students c) as [[-> ->]|(stored & -> & ->)].
    - split; [status_in|done].
    - split; [status_in|]. rewrite length_app. simpl. lia. }
  assert (∀ u, StatusCode (snd (update students u)) ∈ [200; 201; 204; 400; 404; 405] ∧
    length (fst (update students u))
    = if StatusCode (snd (update students u)) =? 201 then S (length students)
      else if StatusCode (snd (update students u)) =? 204
           then pred (length students) else length students) as Hupdate.
  { intros u. destruct (update_cases students u) as [[-> [-> | ->]]|[-> ->]];
      (split; [status_in|done]). }
  assert (∀ id, StatusCode (snd (delete students id)) ∈ [200; 201; 204; 400; 404; 405] ∧
    length (fst (delete students id))
    = if StatusCode (snd (delete students id)) =? 201 then S (length students)
      else if StatusCode (snd (delete students id)) =? 204
           then pred (length students) else length students) as Hdelete.
  { intros id. destruct (delete_cases students id) as [[-> ->]|[<- ->]];
      (split; [status_in|done]). }
  destruct q as [[] r]; unfold serve; simpl.
  - unfold studentsHandler.
    destruct (String.eqb (Method r) MethodGet); [split; [status_in|done]|].
    destruct (String.eqb (Method r) MethodPost); [|split; [status_in|done]].
    destruct (readNewStudent rt r) as [c|resp] eqn:Hr; [apply Hcreate|].
    apply readNewStudent_inr in Hr. simpl. rewrite Hr. split; [status_in|done].
  - unfold studentByIDHandler.
    destruct (String.eqb (Method r) MethodGet).
    { destruct (Atoi rt (PathID r)) as [id|]; [|split; [status_in|done]].
      simpl. unfold get. destruct (findByID id students) as [[i st]|];
        (split; [status_in|done]). }
    destruct (String.eqb (Method r) MethodPut).
    { destruct (Atoi rt (PathID r)) as [id|]; [|split; [status_in|done]].
      destruct (readUpdatedStudent rt r id) as [u|resp] eqn:Hr; [apply Hupdate|].
      apply readUpdatedStudent_inr in Hr. simpl. rewrite Hr.
      split; [status_in|done]. }
    destruct (String.eqb (Method r) MethodDelete); [|split; [status_in|done]].
    destruct (Atoi rt (PathID r)) as [id|]; [|split; [status_in|done]].
    apply Hdelete.
Qed.

(** ** Requests refused before the store is read (X4 - X7) *)

(** X4: a method a route does not serve is answered 405 and the store stays
    as it is, whatever the path id and the body are: /students serves GET
    and POST, /students/{id} serves GET, PUT and DELETE, the summary route
    serves GET and does not call the collaborator otherwise. *)
Theorem method_not_allowed (rt : Runtime) (net : Collaborator) (r : Request)
        (students : list Student) :
  Method r ≠ "GET" →
  summaryHandler rt net r students
  = SummaryError (httpError "Method not allowed" StatusMethodNotAllowed) ∧
  (Method r ≠ "POST" →
   studentsHandler rt r students
   = (students, httpError "Method not allowed" StatusMethodNotAllowed)) ∧
  (Method r ≠ "PUT" → Method r ≠ "DELETE" →
   studentByIDHandler rt r students
   = (students, httpError "Method not allowed" StatusMethodNotAllowed)).
Proof.
  intros Hget%method_eqb_false. split_and!.
  - unfold summaryHandler, MethodGet. by rewrite Hget.
  - intros Hpost%method_eqb_false.
    unfold studentsHandler, MethodGet, MethodPost. by rewrite Hget, Hpost.
  - intros Hput%method_eqb_false Hdel%method_eqb_false.
    unfold studentByIDHandler, MethodGet, MethodPut, MethodDelete.
    by rewrite Hget, Hput, Hdel.
Qed.

(** The preflight method that [enableCORS] announces is refused too. *)
Lemma method_not_allowed_witness :
  studentsHandler sampleRuntime (mkRequest "OPTIONS" "" "" "") [setID alice 1]
  = ([setID alice 1], httpError "Method not allowed" 405) ∧
  studentByIDHandler sampleRuntime (mkRequest "OPTIONS" "" "1" "") [setID alice 1]
  = ([setID alice 1], httpError "Method not allowed" 405) ∧
  summaryHandler sampleRuntime sampleCollaborator (mkRequest "POST" "" "1" "")
                 [setID alice 1]
  = SummaryError (httpError "Method not allowed" 405).
Proof.
  split_and!.
  - by apply (method_not_allowed sampleRuntime sampleCollaborator
                (mkRequest "OPTIONS" "" "" "") [setID alice 1]).
  - by apply (method_not_allowed sampleRuntime sampleCollaborator
                (mkRequest "OPTIONS" "" "1" "") [setID alice 1]).
  - by apply (method_not_allowed sampleRuntime sampleCollaborator
                (mkRequest "POST" "" "1" "") [setID alice 1]).
Defined.

(** X5: when the id of the path is not a number, GET, PUT and DELETE on
    /students/{id} and GET on the summary route answer 400 "Invalid ID"; the
    store stays as it is and neither the body nor the collaborator is
    consulted. *)
Theorem invalid_path_id (rt : Runtime) (net : Collaborator) (r : Request)
        (students : list Student) :
  Atoi rt (PathID r) = None →
  (Method r = "GET" ∨ Method r = "PUT" ∨ Method r = "DELETE" →
   studentByIDHandler rt r students
   = (students, httpError "Invalid ID" StatusBadRequest)) ∧
  (Method r = "GET" →
   summaryHandler rt net r students
   = SummaryError (httpError "Invalid ID" StatusBadRequest)).
Proof.
  intros Hid. split.
  - intros [Hm|[Hm|Hm]]; unfold studentByIDHandler; by rewrite Hm, Hid.
  - intros Hm. unfold summaryHandler. by rewrite Hm, Hid.
Qed.

Lemma invalid_path_id_witness :
  studentByIDHandler sampleRuntime (mkRequest "PUT" "application/json" "abc" "Dana")
                     [setID alice 1]
  = ([setID alice 1], httpError "Invalid ID" 400) ∧
  summaryHandler sampleRuntime sampleCollaborator (mkRequest "GET" "" "abc" "")
                 [setID alice 1]
  = SummaryError (httpError "Invalid ID" 400).
Proof.
  split.
  - apply (invalid_path_id sampleRuntime sampleCollaborator
             (mkRequest "PUT" "application/json" "abc" "Dana") [setID alice 1]);
      [reflexivity|]. right. by left.
  - by apply (invalid_path_id sampleRuntime sampleCollaborator
                (mkRequest "GET" "" "abc" "") [setID alice 1]).
Defined.

(** X6: when the body of a POST or of a PUT cannot be read into a student,
    the answer is the 400 response of the reading step and the store stays
    as it is; validation and the scan of the store do not take place. *)
Theorem unreadable_body (rt : Runtime) (r : Request) (students : list Student)
        (id : Z) (resp : Response) :
  (Method r = "POST" → readNewStudent rt r = inr resp →
   studentsHandler rt r students = (students, resp) ∧ StatusCode resp = 400) ∧
  (Method r = "PUT" → Atoi rt (PathID r) = Some id →
   readUpdatedStudent rt r id = inr resp →
   studentByIDHandler rt r students = (students, resp) ∧ StatusCode resp = 400).
Proof.
  split.
  - intros Hm Hr. split; [|by eapply readNewStudent_inr].
    unfold studentsHandler. by rewrite Hm, Hr.
  - intros Hm Hid Hr. split; [|by eapply readUpdatedStudent_inr].
    unfold studentByIDHandler. by rewrite Hm, Hid, Hr.
Qed.

Lemma unreadable_body_witness :
  studentsHandler sampleRuntime (mkRequest "POST" "application/json" "" "")
                  [setID alice 1]
  = ([setID alice 1], httpError "Invalid JSON data" 400) ∧
  studentByIDHandler sampleRuntime (mkRequest "PUT" "text/plain" "1" "")
                     [setID alice 1]
  = ([setID alice 1], httpError "Invalid form data" 400).
Proof.
  split.
  - by apply (unreadable_body sampleRuntime
                (mkRequest "POST" "application/json" "" "") [setID alice 1] 0
                (httpError "Invalid JSON data" 400)).
  - by apply (unreadable_body sampleRuntime
                (mkRequest "PUT" "text/plain" "1" "") [setID alice 1] 1
                (httpError "Invalid form data" 400)).
Defined.

(** X7: in a form body the age is checked before the validator runs: with no
    value for [age] the answer is 400 "Age is required", with a value that is
    not a number it is 400 "Invalid age: <value> (must be a number)", for POST
    and for PUT alike, whatever the name and the email are; the store stays
    as it is. *)
Theorem form_age_errors (rt : Runtime) (r : Request) (students : list Student)
        (id : Z) (FormValue : string → string) :
  ContentType r ≠ "application/json" →
  ParseForm rt r = Some FormValue →
  (FormValue "age" = "" →
   (Method r = "POST" →
    studentsHandler rt r students
    = (students, httpError "Age is required" StatusBadRequest)) ∧
   (Method r = "PUT" → Atoi rt (PathID r) = Some id →
    studentByIDHandler rt r students
    = (students, httpError "Age is required" StatusBadRequest))) ∧
  (FormValue "age" ≠ "" → Atoi rt (FormValue "age") = None →
   (Method r = "POST" →
    studentsHandler rt r students
    = (students,
       httpError ("Invalid age: " +:+ FormValue "age" +:+ " (must be a number)")
                 StatusBadRequest)) ∧
   (Method r = "PUT" → Atoi rt (PathID r) = Some id →
    studentByIDHandler rt r students
    = (students,
       httpError ("Invalid age: " +:+ FormValue "age" +:+ " (must be a number)")
                 StatusBadRequest))).
Proof.
  intros Hct%content_type_other Hp. split.
  - intros Hage. split.
    + intros Hm. unfold studentsHandler, readNewStudent.
      by rewrite Hm, Hct, Hp, Hage.
    + intros Hm Hid. unfold studentByIDHandler, readUpdatedStudent.
      by rewrite Hm, Hid, Hct, Hp, Hage.
  - intros Hage%String.eqb_neq Hatoi. split.
    + intros Hm. unfold studentsHandler, readNewStudent.
      by rewrite Hm, Hct, Hp, Hage, Hatoi.
    + intros Hm Hid. unfold studentByIDHandler, readUpdatedStudent.
      by rewrite Hm, Hid, Hct, Hp, Hage, Hatoi.
Qed.

Lemma form_age_errors_witness :
  studentsHandler sampleRuntime_ageForm (mkRequest "POST" "text/plain" "" "")
                  [setID alice 1]
  = ([setID alice 1], httpError "Age is required" 400) ∧
  studentByIDHandler sampleRuntime_ageForm (mkRequest "PUT" "text/plain" "1" "abc")
                     [setID alice 1]
  = ([setID alice 1], httpError "Invalid age: abc (must be a number)" 400).
Proof.
  split.
  - destruct (form_age_errors sampleRuntime_ageForm
                (mkRequest "POST" "text/plain" "" "") [setID alice 1] 1
                (λ key, if String.eqb key "age" then "" else ""))
      as [Hmissing _]; [discriminate|reflexivity|].
    destruct Hmissing as [Hpost _]; [reflexivity|]. by apply Hpost.
  - destruct (form_age_errors sampleRuntime_ageForm
                (mkRequest "PUT" "text/plain" "1" "abc") [setID alice 1] 1
                (λ key, if String.eqb key "age" then "abc" else ""))
      as [_ Hbad]; [discriminate|reflexivity|].
    destruct Hbad as [_ Hput]; [discriminate|reflexivity|]. by apply Hput.
Defined.

(** ** How the store operations compose (X8 - X12) *)

Lemma get_nil (id : Z) : get [] id = httpError "Student not found" StatusNotFound.
Proof. reflexivity. Qed.

Lemma get_cons (st : Student) (students : list Student) (id : Z) :
  get (st :: students) id
  = if decide (ID st = id) then mkResponse StatusOK (StudentJSON st)
    else get students id.
Proof.
  unfold get, findByID. simpl. case_decide; [done|].
  by destruct (list_find _ students) as [[i x]|].
Qed.

(** A lookup reads the records carrying its id only. *)
Lemma get_filter (students : list Student) (id : Z) :
  get students id = get (filter (λ student, ID student = id) students) id.
Proof.
  induction students as [|st students IH]; [done|].
  rewrite get_cons. destruct (decide (ID st = id)) as [Heq|Hne].
  - rewrite filter_cons_True by done. rewrite get_cons. by rewrite decide_True.
  - by rewrite filter_cons_False.
Qed.

Lemma update_ids_length (students : list Student) (u : Student) :
  ids (fst (update students u)) = ids students ∧
  length (fst (update students u)) = length students.
Proof.
  unfold update. destruct (validateStudent u); [done|].
  destruct (findByID (ID u) students) as [[i st]|] eqn:Hf; [|done].
  apply findByID_Some in Hf as (pre & post & -> & <- & _ & Hst). simpl.
  rewrite insert_at. unfold ids. rewrite !fmap_app, !length_app. simpl.
  by rewrite Hst.
Qed.

(** X8: an update never changes which ids the store holds nor their order,
    whether it succeeds or not; a PUT request therefore never does. *)
Theorem update_keeps_ids (rt : Runtime) (r : Request) (students : list Student)
        (u : Student) :
  ids (fst (update students u)) = ids students ∧
  length (fst (update students u)) = length students ∧
  (Method r = "PUT" →
   ids (fst (studentByIDHandler rt r students)) = ids students).
Proof.
  split_and!; [apply update_ids_length..|].
  intros Hm. unfold studentByIDHandler. rewrite Hm. simpl.
  destruct (Atoi rt (PathID r)) as [id|]; [|done].
  destruct (readUpdatedStudent rt r id) as [u'|resp]; [|done].
  apply update_ids_length.
Qed.

Lemma update_keeps_ids_witness :
  ids (fst (studentByIDHandler sampleRuntime
              (mkRequest "PUT" "application/json" "1" "Dana")
              [setID alice 1; setID bob 2]))
  = [1; 2].
Proof.
  by apply (update_keeps_ids sampleRuntime
              (mkRequest "PUT" "application/json" "1" "Dana")
              [setID alice 1; setID bob 2] alice).
Defined.

(** X9: repeating an update gives the answer and the store of the first
    one. *)
Theorem update_idempotent (students : list Student) (u : Student) :
  update (fst (update students u)) u = update students u.
Proof.
  unfold update at 2 3. destruct (validateStudent u) eqn:Hv.
  { simpl. unfold update. by rewrite Hv. }
  destruct (findByID (ID u) students) as [[i st]|] eqn:Hf.
  - apply findByID_Some in Hf as (pre & post & -> & <- & Hpre & Hst). simpl.
    rewrite insert_at. by apply update_first.
  - simpl. unfold update. by rewrite Hv, Hf.
Qed.

(** X10: updating or deleting the record of one id leaves the lookup of
    every other id as it was. *)
Theorem get_unaffected_by_other_id (students : list Student) (id id' : Z) :
  id' ≠ id →
  (∀ u, ID u = id → get (fst (update students u)) id' = get students id') ∧
  get (fst (delete students id)) id' = get students id'.
Proof.
  intros Hne. split.
  - intros u Hu. unfold update. destruct (validateStudent u); [done|].
    rewrite Hu. destruct (findByID id students) as [[i st]|] eqn:Hf; [|done].
    apply findByID_Some in Hf as (pre & post & -> & <- & _ & Hst). simpl.
    rewrite insert_at.
    rewrite (get_filter (pre ++ u :: post)), (get_filter (pre ++ st :: post)).
    rewrite !filter_app, !filter_cons_False; [done|congruence|congruence].
  - unfold delete. destruct (findByID id students) as [[i st]|] eqn:Hf; [|done].
    apply findByID_Some in Hf as (pre & post & -> & <- & _ & Hst). simpl.
    rewrite take_drop_at.
    rewrite (get_filter (pre ++ post)), (get_filter (pre ++ st :: post)).
    rewrite !filter_app, filter_cons_False; [done|congruence].
Qed.

Lemma get_unaffected_by_other_id_witness :
  get (fst (update [setID alice 1; setID bob 2] (setID carol 2))) 1
  = get [setID alice 1; setID bob 2] 1 ∧
  get (fst (delete [setID alice 1; setID bob 2] 2)) 1
  = get [setID alice 1; setID bob 2] 1.
Proof.
  destruct (get_unaffected_by_other_id [setID alice 1; setID bob 2] 2 1)
    as [Hupd Hdel]; [discriminate|].
  split; [by apply Hupd|exact Hdel].
Defined.

(** X11: a creation leaves the lookup of every id the store already holds as
    it was; this includes the id given to the new record when an older record
    carries it, so that the new record is then out of reach of get, update
    and delete until the older one is deleted. *)
Theorem create_keeps_existing_lookups (students : list Student) (c : Student)
        (id : Z) :
  id ∈ ids students →
  get (fst (create students c)) id = get students id ∧
  ∃ st, st ∈ students ∧ get (fst (create students c)) id
                        = mkResponse StatusOK (StudentJSON st).
Proof.
  intros Hin.
  destruct (split_at_first id students Hin) as (pre & st & post & -> & Hpre & Hst).
  assert (get (fst (create (pre ++ st :: post) c)) id
          = mkResponse StatusOK (StudentJSON st)) as Hget.
  { unfold create. destruct (validateStudent c); simpl.
    - by apply get_first.
    - rewrite <- app_assoc. simpl. by apply get_first. }
  split.
  - by rewrite Hget, get_first.
  - exists st. split; [|done]. apply elem_of_app. right. by left.
Qed.

Lemma create_keeps_existing_lookups_witness :
  get (fst (create [setID bob 2] carol)) 2 = get [setID bob 2] 2.
Proof.
  apply (create_keeps_existing_lookups [setID bob 2] carol 2).
  by apply list_elem_of_singleton.
Defined.

(** X12: when no record carries the id [len(students) + 1] yet, the record
    just created is the one a get of that id returns. *)
Theorem create_then_get_fresh (students : list Student) (c : Student) :
  validateStudent c = None →
  len students < maxInt →
  len students + 1 ∉ ids students →
  get (fst (create students c)) (len students + 1)
  = mkResponse StatusOK (StudentJSON (setID c (len students + 1))) ∧
  snd (create students c)
  = mkResponse StatusCreated (StudentJSON (setID c (len students + 1))).
Proof.
  intros Hv Hlen Hfresh%not_elem_of_ids. unfold create.
  rewrite Hv, int_add_len by done. simpl. split; [|done].
  by apply (get_first _ students []).
Qed.

Lemma create_then_get_fresh_witness :
  get (fst (create [setID alice 1] bob)) 2
  = mkResponse StatusOK (StudentJSON (setID bob 2)).
Proof.
  apply (create_then_get_fresh [setID alice 1] bob).
  - reflexivity.
  - by vm_compute.
  - intros Hin. apply list_elem_of_singleton in Hin. discriminate Hin.
Defined.

(** ** The ids of reachable stores (X13, X14) *)

Lemma run_snoc (ops : list Op) (op : Op) :
  run (ops ++ [op]) = apply_op (run ops) op.
Proof. unfold run. by rewrite foldl_app. Qed.

Lemma apply_op_length (students : list Student) (op : Op) :
  (length (apply_op students op) ≤ S (length students))%nat.
Proof.
  destruct op as [c|id X|id]; simpl.
  - destruct (create_cases students c) as [[-> _]|(stored & -> & _)];
      [lia|rewrite length_app; simpl; lia].
  - destruct (update_ids_length students (setID X id)) as [_ ->]. lia.
  - destruct (delete_cases students id) as [[-> _]|[<- _]]; lia.
Qed.

Lemma run_length (ops : list Op) : (length (run ops) ≤ length ops)%nat.
Proof.
  induction ops as [|op ops IH] using rev_ind; [done|].
  rewrite run_snoc, length_app. simpl.
  pose proof (apply_op_length (run ops) op). lia.
Qed.

(** The ids left by a deletion are ids of the store before. *)
Lemma delete_ids_subseteq (students : list Student) (id : Z) :
  ids (fst (delete students id)) ⊆ ids students.
Proof.
  unfold delete. destruct (findByID id students) as [[i st]|] eqn:Hf; [|done].
  apply findByID_Some in Hf as (pre & post & -> & <- & _ & _). simpl.
  rewrite take_drop_at. unfold ids. rewrite !fmap_app. simpl.
  intros x [Hx|Hx]%elem_of_app; apply elem_of_app; [by left|].
  right. by right.
Qed.

(** X13: as long as nothing is deleted the ids of the store are 1, 2, ..., n
    in the order of insertion, hence pairwise different: creations number
    the records and updates keep the ids. *)
Theorem ids_without_delete (ops : list Op) :
  Forall (λ op, ∀ id, op ≠ OpDelete id) ops →
  Z.of_nat (length ops) < maxInt →
  ids (run ops) = Z.of_nat <$> seq 1 (length (run ops)) ∧
  NoDup (ids (run ops)).
Proof.
  intros Hops Hlen.
  assert (ids (run ops) = Z.of_nat <$> seq 1 (length (run ops))) as Hids.
  { induction ops as [|op ops IH] using rev_ind; [done|].
    apply Forall_app in Hops as [Hops Hop]. rewrite Forall_singleton in Hop.
    rewrite length_app in Hlen. simpl in Hlen.
    rewrite run_snoc. destruct op as [c|id X|id]; simpl.
    - apply create_only_ids; [|apply IH; [done|lia]].
      pose proof (run_length ops). unfold len. lia.
    - destruct (update_ids_length (run ops) (setID X id)) as [-> ->].
      apply IH; [done|lia].
    - by destruct (Hop id). }
  split; [done|]. rewrite Hids.
  apply NoDup_fmap_2; [apply Nat2Z.inj'|apply NoDup_seq].
Qed.

Lemma ids_without_delete_witness :
  ids (run [OpCreate alice; OpCreate bob; OpUpdate 1 carol; OpCreate carol])
  = [1; 2; 3].
Proof.
  destruct (ids_without_delete
              [OpCreate alice; OpCreate bob; OpUpdate 1 carol; OpCreate carol])
    as [Hids _].
  - repeat (apply Forall_cons; split; [discriminate|]). apply Forall_nil_2.
  - by vm_compute.
  - exact Hids.
Defined.

(** X14: every id of a reachable store lies between 1 and the number of
    operations performed so far; in particular no record has the id 0 or a
    negative id. *)
Theorem ids_bounded (ops : list Op) :
  Z.of_nat (length ops) < maxInt →
  Forall (λ id, 1 ≤ id ≤ Z.of_nat (length ops)) (ids (run ops)).
Proof.
  induction ops as [|op ops IH] using rev_ind; intros Hlen; [by constructor|].
  rewrite length_app in Hlen |- *. simpl in Hlen |- *.
  assert (Forall (λ id, 1 ≤ id ≤ Z.of_nat (length ops + 1)) (ids (run ops)))
    as Hold.
  { eapply Forall_impl; [apply IH; lia|]. simpl. lia. }
  pose proof (run_length ops) as Hrun.
  rewrite run_snoc. destruct op as [c|id X|id]; simpl.
  - unfold create. destruct (validateStudent c); [done|]. simpl.
    unfold ids in *. rewrite fmap_app. apply Forall_app. split; [done|].
    apply Forall_singleton. simpl.
    rewrite int_add_len by (unfold len; lia). unfold len. lia.
  - by destruct (update_ids_length (run ops) (setID X id)) as [-> _].
  - rewrite Forall_forall in Hold |- *. intros x Hx.
    apply Hold. by apply (delete_ids_subseteq (run ops) id).
Qed.

Lemma ids_bounded_witness :
  Forall (λ id, 1 ≤ id ≤ 4) (ids (run history_reusing_id)).
Proof.
  apply (ids_bounded history_reusing_id). by vm_compute.
Defined.

(** ** The summary route (X15 - X18) *)

(** X15: the summary of an id that no record carries is answered 404 and
    the collaborator is not called: the answer is the same for every
    collaborator. *)
Theorem summary_absent_id (rt : Runtime) (net : Collaborator) (r : Request)
        (students : list Student) (id : Z) :
  Method r = "GET" →
  Atoi rt (PathID r) = Some id →
  id ∉ ids students →
  summaryHandler rt net r students
  = SummaryError (httpError "Student not found" StatusNotFound).
Proof.
  intros Hm Hid Hnot%not_elem_of_ids%findByID_None.
  unfold summaryHandler. by rewrite Hm, Hid, Hnot.
Qed.

Lemma summary_absent_id_witness :
  summaryHandler sampleRuntime collaborator_down (mkRequest "GET" "" "2" "")
                 [setID alice 1]
  = SummaryError (httpError "Student not found" 404).
Proof.
  apply (summary_absent_id sampleRuntime collaborator_down
           (mkRequest "GET" "" "2" "") [setID alice 1] 2); [done|done|].
  intros Hin. apply list_elem_of_singleton in Hin. discriminate Hin.
Defined.

(** X16: a summary answered with a student and a text comes from a GET with
    a numeric id; the student is the record a get of that id returns (the
    first one carrying the id) and the text is what the collaborator
    returned for that record. *)
Theorem summary_serves_get_record (rt : Runtime) (net : Collaborator)
        (r : Request) (students : list Student) (st : Student) (text : string) :
  summaryHandler rt net r students = SummaryJSON st text →
  Method r = "GET" ∧
  ∃ id, Atoi rt (PathID r) = Some id ∧ ID st = id ∧ st ∈ students ∧
        get students id = mkResponse StatusOK (StudentJSON st) ∧
        callOllamaAPI net st = Ok text.
Proof.
  unfold summaryHandler.
  destruct (String.eqb (Method r) MethodGet) eqn:Hm; [|done].
  apply method_eqb_true in Hm. simpl.
  destruct (Atoi rt (PathID r)) as [id|]; [|done].
  destruct (findByID id students) as [[i target]|] eqn:Hf; [|done].
  destruct (callOllamaAPI net target) as [summary|err] eqn:Hcall; [|done].
  intros [= <- <-]. split; [done|]. exists id.
  apply findByID_Some in Hf as (pre & post & -> & _ & Hpre & Hst).
  split_and!; try done.
  - apply elem_of_app. right. by left.
  - by apply get_first.
Qed.

Lemma summary_serves_get_record_witness :
  get [setID alice 1; setID bob 2; setID carol 2] 2
  = mkResponse StatusOK (StudentJSON (setID bob 2)) ∧
  callOllamaAPI sampleCollaborator (setID bob 2) = Ok "ok".
Proof.
  destruct (summary_serves_get_record sampleRuntime sampleCollaborator
              (mkRequest "GET" "" "2" "")
              [setID alice 1; setID bob 2; setID carol 2] (setID bob 2) "ok")
    as (_ & id & Hid & _ & _ & Hget & Hcall).
  - by vm_compute.
  - injection Hid as <-. by split.
Defined.

(** The request the client sends for a student. *)
Lemma callOllamaAPI_unfold (net : Collaborator) (st : Student) (jsonData : string) :
  Marshal net (mkOllamaRequest "llama3.2" (ollamaPrompt st) false) = Ok jsonData →
  callOllamaAPI net st
  = match Post net "http://localhost:11434/api/generate" "application/json" jsonData with
    | Err err => Err ("failed to call Ollama API: " +:+ err)
    | Ok (status, body) =>
        if negb (status =? StatusOK) then
          Err ("Ollama API returned status: " +:+ itoa status)
        else
          match DecodeOllama net body (mkOllamaResponse "") with
          | Err err => Err err
          | Ok ollamaResp => Ok (OllamaResponse_Response ollamaResp)
          end
    end.
Proof. intros Hm. unfold callOllamaAPI. by rewrite Hm. Qed.

(** X17: for the first record carrying the id of a GET on the summary route,
    the answer follows the post to the collaborator: a failed post and a
    status other than 200 (also another 2xx) are answered 500 with the cause
    in the text, a body that cannot be decoded is answered 500 with the
    decoder's error, and only status 200 with a decodable body is answered
    with the student and the text. *)
Theorem summary_outcomes (rt : Runtime) (net : Collaborator) (r : Request)
        (pre post : list Student) (st : Student) (id : Z) (jsonData : string) :
  Method r = "GET" →
  Atoi rt (PathID r) = Some id →
  Forall (λ student, ID student ≠ id) pre → ID st = id →
  Marshal net (mkOllamaRequest "llama3.2" (ollamaPrompt st) false) = Ok jsonData →
  (∀ err,
     Post net "http://localhost:11434/api/generate" "application/json" jsonData
     = Err err →
     summaryHandler rt net r (pre ++ st :: post)
     = SummaryError
         (httpError ("Failed to generate summary: failed to call Ollama API: " +:+ err)
                    StatusInternalServerError)) ∧
  (∀ status body,
     Post net "http://localhost:11434/api/generate" "application/json" jsonData
     = Ok (status, body) →
     status ≠ 200 →
     summaryHandler rt net r (pre ++ st :: post)
     = SummaryError
         (httpError ("Failed to generate summary: Ollama API returned status: "
                     +:+ itoa status)
                    StatusInternalServerError)) ∧
  (∀ body err,
     Post net "http://localhost:11434/api/generate" "application/json" jsonData
     = Ok (200, body) →
     DecodeOllama net body (mkOllamaResponse "") = Err err →
     summaryHandler rt net r (pre ++ st :: post)
     = SummaryError (httpError ("Failed to generate summary: " +:+ err)
                               StatusInternalServerError)) ∧
  (∀ body resp,
     Post net "http://localhost:11434/api/generate" "application/json" jsonData
     = Ok (200, body) →
     DecodeOllama net body (mkOllamaResponse "") = Ok resp →
     summaryHandler rt net r (pre ++ st :: post)
     = SummaryJSON st (OllamaResponse_Response resp)).
Proof.
  intros Hm Hid Hpre Hst Hmarshal.
  assert (summaryHandler rt net r (pre ++ st :: post)
          = match callOllamaAPI net st with
            | Err err =>
                SummaryError (httpError ("Failed to generate summary: " +:+ err)
                                        StatusInternalServerError)
            | Ok summary => SummaryJSON st summary
            end) as ->.
  { unfold summaryHandler. by rewrite Hm, Hid, findByID_first. }
  rewrite (callOllamaAPI_unfold net st jsonData Hmarshal). split_and!.
  - intros err ->. done.
  - intros status body -> Hne%Z.eqb_neq. unfold StatusOK. by rewrite Hne.
  - intros body err -> ->. done.
  - intros body resp -> ->. done.
Qed.

Lemma summary_outcomes_witness :
  summaryHandler sampleRuntime collaborator_down (mkRequest "GET" "" "1" "")
                 [setID alice 1]
  = SummaryError
      (httpError "Failed to generate summary: failed to call Ollama API: connection refused"
                 500) ∧
  summaryHandler sampleRuntime collaborator_busy (mkRequest "GET" "" "1" "")
                 [setID alice 1]
  = SummaryError
      (httpError "Failed to generate summary: Ollama API returned status: 503" 500) ∧
  summaryHandler sampleRuntime collaborator_garbled (mkRequest "GET" "" "1" "")
                 [setID alice 1]
  = SummaryError (httpError "Failed to generate summary: unexpected EOF" 500) ∧
  summaryHandler sampleRuntime sampleCollaborator (mkRequest "GET" "" "1" "")
                 [setID alice 1]
  = SummaryJSON (setID alice 1) "ok".
Proof.
  split_and!.
  - destruct (summary_outcomes sampleRuntime collaborator_down
                (mkRequest "GET" "" "1" "") [] [] (setID alice 1) 1
                (ollamaPrompt alice) eq_refl eq_refl (Forall_nil_2 _) eq_refl eq_refl)
      as (Hdown & _).
    by apply (Hdown "connection refused").
  - destruct (summary_outcomes sampleRuntime collaborator_busy
                (mkRequest "GET" "" "1" "") [] [] (setID alice 1) 1
                (ollamaPrompt alice) eq_refl eq_refl (Forall_nil_2 _) eq_refl eq_refl)
      as (_ & Hbusy & _).
    by apply (Hbusy 503 "busy").
  - destruct (summary_outcomes sampleRuntime collaborator_garbled
                (mkRequest "GET" "" "1" "") [] [] (setID alice 1) 1
                (ollamaPrompt alice) eq_refl eq_refl (Forall_nil_2 _) eq_refl eq_refl)
      as (_ & _ & Hgarbled & _).
    by apply (Hgarbled "ok" "unexpected EOF").
  - destruct (summary_outcomes sampleRuntime sampleCollaborator
                (mkRequest "GET" "" "1" "") [] [] (setID alice 1) 1
                (ollamaPrompt alice) eq_refl eq_refl (Forall_nil_2 _) eq_refl eq_refl)
      as (_ & _ & _ & Hok).
    by apply (Hok "ok" (mkOllamaResponse "ok")).
Defined.

(** X18: the client sends the name, the age and the email of the student and
    not the id, and it posts to the one address of the summarizer with the
    content type application/json: two students with these three fields
    equal, and two collaborators that agree on the request and at that
    address, give the same result. *)
Theorem collaborator_sees_fields_only (net net' : Collaborator) (st st' : Student) :
  Name st = Name st' → Age st = Age st' → Email st = Email st' →
  Marshal net (mkOllamaRequest "llama3.2" (ollamaPrompt st) false)
  = Marshal net' (mkOllamaRequest "llama3.2" (ollamaPrompt st) false) →
  (∀ body, Post net "http://localhost:11434/api/generate" "application/json" body
           = Post net' "http://localhost:11434/api/generate" "application/json" body) →
  (∀ body, DecodeOllama net body (mkOllamaResponse "")
           = DecodeOllama net' body (mkOllamaResponse "")) →
  callOllamaAPI net st = callOllamaAPI net' st'.
Proof.
  intros Hname Hage Hemail Hmarshal Hpost Hdecode.
  assert (ollamaPrompt st' = ollamaPrompt st) as Hprompt.
  { unfold ollamaPrompt. by rewrite Hname, Hage, Hemail. }
  unfold callOllamaAPI. rewrite Hprompt, Hmarshal.
  destruct (Marshal net' _) as [jsonData|err]; [|done].
  rewrite Hpost. destruct (Post net' _ _ jsonData) as [[status body]|err]; [|done].
  destruct (negb (status =? StatusOK)); [done|]. by rewrite Hdecode.
Qed.

Lemma collaborator_sees_fields_only_witness :
  callOllamaAPI sampleCollaborator (setID alice 1)
  = callOllamaAPI collaborator_one_address (setID alice 7).
Proof.
  by apply (collaborator_sees_fields_only sampleCollaborator
              collaborator_one_address (setID alice 1) (setID alice 7)).
Defined.

(** ** enableCORS (X19) *)

(** The three names set by [enableCORS] are in canonical form. *)
Lemma enableCORS_unfold (h : Header) :
  enableCORS h
  = <["Access-Control-Allow-Headers" := ["Content-Type"]]>
      (<["Access-Control-Allow-Methods" := ["GET, POST, PUT, DELETE, OPTIONS"]]>
         (<["Access-Control-Allow-Origin" := ["*"]]> h)).
Proof. reflexivity. Qed.

(** X19: after [enableCORS] a [Get] of one of the three headers of
    cross-origin access, in whatever case the name is written, returns the
    value of the source whatever the header held before; a [Get] of a name
    whose canonical form is none of the three returns what it returned
    before; a second call changes nothing. *)
Theorem enableCORS_headers (h : Header) (key : string) :
  (CanonicalMIMEHeaderKey key = "Access-Control-Allow-Origin" →
   Header_Get key (enableCORS h) = "*") ∧
  (CanonicalMIMEHeaderKey key = "Access-Control-Allow-Methods" →
   Header_Get key (enableCORS h) = "GET, POST, PUT, DELETE, OPTIONS") ∧
  (CanonicalMIMEHeaderKey key = "Access-Control-Allow-Headers" →
   Header_Get key (enableCORS h) = "Content-Type") ∧
  enableCORS (enableCORS h) = enableCORS h ∧
  (CanonicalMIMEHeaderKey key ≠ "Access-Control-Allow-Origin" →
   CanonicalMIMEHeaderKey key ≠ "Access-Control-Allow-Methods" →
   CanonicalMIMEHeaderKey key ≠ "Access-Control-Allow-Headers" →
   Header_Get key (enableCORS h) = Header_Get key h).
Proof.
  rewrite !enableCORS_unfold. unfold Header_Get. split_and!.
  - intros ->. rewrite lookup_insert_ne by done.
    rewrite lookup_insert_ne by done. by rewrite lookup_insert_eq.
  - intros ->. rewrite lookup_insert_ne by done. by rewrite lookup_insert_eq.
  - intros ->. by rewrite lookup_insert_eq.
  - apply map_eq. intros k. rewrite !lookup_insert.
    repeat case_decide; done.
  - intros H1 H2 H3. by rewrite !lookup_insert_ne.
Qed.

Lemma enableCORS_headers_witness :
  Header_Get "access-control-allow-origin" (enableCORS ∅) = "*" ∧
  Header_Get "ACCESS-CONTROL-ALLOW-METHODS" (enableCORS ∅)
  = "GET, POST, PUT, DELETE, OPTIONS" ∧
  Header_Get "Access-Control-Allow-Headers"
             (enableCORS (Header_Set "access-control-allow-headers" "X-Token" ∅))
  = "Content-Type" ∧
  Header_Get "content-type"
             (enableCORS (Header_Set "Content-Type" "application/json" ∅))
  = "application/json".
Proof.
  split_and!.
  - by apply (enableCORS_headers ∅ "access-control-allow-origin").
  - by apply (enableCORS_headers ∅ "ACCESS-CONTROL-ALLOW-METHODS").
  - by apply (enableCORS_headers
                (Header_Set "access-control-allow-headers" "X-Token" ∅)
                "Access-Control-Allow-Headers").
  - destruct (enableCORS_headers
                (Header_Set "Content-Type" "application/json" ∅) "content-type")
      as (_ & _ & _ & _ & Hother).
    rewrite Hother; [reflexivity|discriminate..].
Defined.

(** ** Where pairwise different ids are kept and where they are lost (X20) *)

(** X20: update and delete keep the ids of a store pairwise different, and
    after the delete no record carries the deleted id; a successful creation
    keeps them pairwise different exactly when no record carries the id
    [len(students) + 1] yet. *)
Theorem unique_ids_preservation (students : list Student) (u c : Student) (id : Z) :
  NoDup (ids students) →
  NoDup (ids (fst (update students u))) ∧
  NoDup (ids (fst (delete students id))) ∧
  (id ∉ ids (fst (delete students id))) ∧
  (validateStudent c = None → len students < maxInt →
   (NoDup (ids (fst (create students c))) ↔ len students + 1 ∉ ids students)).
Proof.
  intros Hnd. split_and!.
  - by destruct (update_ids_length students u) as [-> _].
  - unfold delete. destruct (findByID id students) as [[i st]|] eqn:Hf; [|done].
    apply findByID_Some in Hf as (pre & post & -> & <- & _ & _). simpl.
    rewrite take_drop_at. unfold ids in *. rewrite fmap_app in *. simpl in Hnd.
    apply NoDup_app in Hnd as (Hpre & Hdisj & Hpost).
    apply NoDup_cons in Hpost as [_ Hpost].
    apply NoDup_app. split_and!; [done| |done].
    intros x Hx Hx'. apply (Hdisj x Hx). by right.
  - destruct (decide (id ∈ ids students)) as [Hin|Hnot].
    + destruct (delete_then_get_unique students id Hnd Hin)
        as (students' & -> & _ & Hgone). done.
    + assert (findByID id students = None) as Hf
        by (by apply findByID_None, not_elem_of_ids).
      unfold delete. rewrite Hf. simpl. done.
  - intros Hv Hlen. unfold create. rewrite Hv, int_add_len by done. simpl.
    unfold ids in *. rewrite fmap_app. simpl. split.
    + intros (_ & Hdisj & _)%NoDup_app Hin. apply (Hdisj _ Hin). by left.
    + intros Hfresh. apply NoDup_app. split_and!; [done| |apply NoDup_singleton].
      intros x Hx ->%list_elem_of_singleton. done.
Qed.

Lemma unique_ids_preservation_witness :
  NoDup (ids (fst (delete [setID alice 1; setID bob 2] 1))) ∧
  ¬ NoDup (ids (fst (create [setID bob 2] carol))).
Proof.
  assert (NoDup (ids [setID alice 1; setID bob 2])) as Hnd2.
  { apply NoDup_cons. split.
    - intros Hin. apply list_elem_of_singleton in Hin. discriminate Hin.
    - apply NoDup_singleton. }
  assert (NoDup (ids [setID bob 2])) as Hnd1 by apply NoDup_singleton.
  split.
  - by apply (unique_ids_preservation [setID alice 1; setID bob 2] alice alice 1).
  - destruct (unique_ids_preservation [setID bob 2] alice carol 1 Hnd1)
      as (_ & _ & _ & Hcreate).
    intros Hnd. apply Hcreate in Hnd; [|reflexivity|by vm_compute].
    apply Hnd. by apply list_elem_of_singleton.
Defined.
